(** * ducktools-pep723parser: the block scanner and the metadata facade

    A shallow embedding of [src/ducktools/pep723parser.py].  Python [str]
    values are lists of Unicode code points, the generator
    [_parse_source_blocks] is a step function over an explicit record of its
    local variables, and the facade methods live in a small state-and-error
    monad over the parser object. *)

From Stdlib Require Import Strings.String Strings.Ascii NArith.
From stdpp Require Import base list gmap sets.

Local Open Scope N_scope.
Set Warnings "-register-all".

(** ** Python strings *)

Module PyStr.

(** A character is a Unicode code point; a [str] is a sequence of them. *)
Definition char : Type := N.
Definition str : Type := list char.

(** Literals are written as Rocq strings and read code point by code
    point. *)
Fixpoint lit (s : string) : str :=
  match s with
  | EmptyString => []
  | String a r => N_of_ascii a :: lit r
  end.

#[global] Arguments lit : simpl never.

Definition nl : str := [10].
Definition dquote : str := [34].

(** [ch.isspace()] as CPython's [_PyUnicode_IsWhitespace] decides it; this
    is the set [str.strip] and [str.rstrip] remove when called without an
    argument. *)
Definition is_space (c : char) : bool :=
  ((9 <=? c) && (c <=? 13)) || ((28 <=? c) && (c <=? 32))
  || (c =? 133) || (c =? 160) || (c =? 5760)
  || ((8192 <=? c) && (c <=? 8202))
  || (c =? 8232) || (c =? 8233) || (c =? 8239) || (c =? 8287)
  || (c =? 12288).

(** [a == b] on strings. *)
Definition str_eqb (a b : str) : bool := bool_decide (a = b).

(** [txt.startswith(prefix)] *)
Fixpoint startswith (txt prefix : str) {struct prefix} : bool :=
  match prefix, txt with
  | [], _ => true
  | _ :: _, [] => false
  | p :: ps, c :: cs => (c =? p) && startswith cs ps
  end.

(** [txt.rstrip()] *)
Fixpoint rstrip (txt : str) : str :=
  match txt with
  | [] => []
  | c :: r =>
      match rstrip r with
      | [] => if is_space c then [] else [c]
      | r' => c :: r'
      end
  end.

(** [txt.lstrip()] *)
Fixpoint lstrip (txt : str) : str :=
  match txt with
  | [] => []
  | c :: r => if is_space c then lstrip r else c :: r
  end.

(** [txt.strip()] *)
Definition strip (txt : str) : str := lstrip (rstrip txt).

(** [c in s] for a one-character [c]. *)
Definition char_in (c : char) (s : str) : bool := existsb (N.eqb c) s.

(** [''.join(parts)] *)
Definition join (parts : list str) : str := concat parts.

End PyStr.

Import PyStr.

(** ** Module-level helpers of the source *)

(** [_removeprefix(txt, prefix)] *)
Definition _removeprefix (txt prefix : str) : str :=
  if startswith txt prefix then drop (length prefix) txt else txt.

(** [_is_valid_type(txt)] *)
Definition _is_valid_type (txt : str) : bool :=
  let ascii_lowercase := lit "abcdefghijklmnopqrstuvwxyz" in
  let ascii_uppercase := lit "ABCDEFGHIJKLMNOPQRSTUVWXYZ" in
  let digits := lit "0123456789" in
  let extra_characters := lit "-" in
  let valid_type :=
    ascii_lowercase ++ ascii_uppercase ++ digits ++ extra_characters in
  forallb (fun c => char_in c valid_type) txt.

(** ** The scanner: [EmbeddedMetadataParser._parse_source_blocks] *)

(** The entries of [self.possible_errors].  The source formats them as
    f-strings over the [repr] of the two names; the embedding keeps the two
    names and leaves the rendering out. *)
Inductive diagnostic : Type :=
  | NewBlockBeforeClose (invalid_block_name : str) (block_name : option str).

(** The two messages passed to [warnings.warn]. *)
Inductive warning : Type :=
  | UnclosedBlock (block_name : option str)
  | ShouldBePyproject (block_name : str).

(** What the generator does that its caller can observe, in order. *)
Inductive event : Type :=
  | Yield (block_name : option str) (block_text : str)
  | Warn (w : warning).

Inductive exn : Type :=
  | ProvideOnlyOne
  | MustProvideOne
  | MultipleBlocks (block_name : str)
  | KeyError (key : str)
  | TOMLDecodeError (msg : str) (possible : list diagnostic)
  | TypeError
  | AttributeError
  | FileError
  | InvalidSpecifier
  | InvalidRequirement.

(** The local variables of the generator, with [self.possible_errors]. *)
Record scan_state : Type := ScanState {
  in_block : bool;
  block_name : option str;
  block_data : list str;
  consumed_blocks : gset str;
  possible_errors : list diagnostic
}.

#[global] Instance diagnostic_eq_dec : EqDecision diagnostic.
Proof. solve_decision. Defined.
#[global] Instance warning_eq_dec : EqDecision warning.
Proof. solve_decision. Defined.
#[global] Instance event_eq_dec : EqDecision event.
Proof. solve_decision. Defined.

(** The state before the first line; [self.possible_errors] is assigned a
    fresh empty list whatever it held. *)
Definition scan_init : scan_state :=
  {| in_block := false; block_name := None; block_data := [];
     consumed_blocks := ∅; possible_errors := [] |}.

Inductive step_result : Type :=
  | Next (s : scan_state) (evs : list event)
  | Raise (e : exn) (evs : list event).

(** "Reset" in the source: [in_block = False; block_name, block_data = None, []]. *)
Definition reset (s : scan_state) : scan_state :=
  {| in_block := false; block_name := None; block_data := [];
     consumed_blocks := consumed_blocks s;
     possible_errors := possible_errors s |}.

(** One iteration of [for line in iterable_src]. *)
Definition scan_step (s : scan_state) (line : str) : step_result :=
  if in_block s then
    if negb (str_eqb (rstrip line) (lit "#") || startswith line (lit "# "))
    then Next (reset s) [Warn (UnclosedBlock (block_name s))]
    else if str_eqb (rstrip line) (lit "# ///")
    then
      let block_text := join (block_data s) in
      Next (reset s) [Yield (block_name s) block_text]
    else
      let errs :=
        if startswith line (lit "# /// ") then
          let invalid_block_name := strip (drop 5 line) in
          possible_errors s
            ++ [NewBlockBeforeClose invalid_block_name (block_name s)]
        else possible_errors s in
      Next {| in_block := true; block_name := block_name s;
              block_data :=
                block_data s ++ [_removeprefix (drop 1 line) (lit " ")];
              consumed_blocks := consumed_blocks s;
              possible_errors := errs |} []
  else
    if startswith line (lit "#") then
      let line := rstrip line in
      if negb (str_eqb line (lit "# ///")) && startswith line (lit "# /// ")
      then
        let line := _removeprefix (drop 1 line) (lit " ") in
        let name := strip (drop 4 line) in
        if bool_decide (name ∈ consumed_blocks s)
        then Raise (MultipleBlocks name) []
        else
          let evs :=
            if str_eqb name (lit "pyproject.toml")
            then [Warn (ShouldBePyproject name)] else [] in
          if _is_valid_type name then
            Next {| in_block := true; block_name := Some name;
                    block_data := block_data s;
                    consumed_blocks := {[name]} ∪ consumed_blocks s;
                    possible_errors := possible_errors s |} evs
          else
            Next {| in_block := false; block_name := Some name;
                    block_data := block_data s;
                    consumed_blocks := consumed_blocks s;
                    possible_errors := possible_errors s |} evs
      else Next s []
    else Next s [].

(** How a run of the generator ends: exhausted, or by an exception. *)
Inductive outcome : Type :=
  | Exhausted (s : scan_state)
  | Raised (e : exn) (s : scan_state).

(** The exception a run ended by, if any. *)
Definition outcome_exn (o : outcome) : option exn :=
  match o with Exhausted _ => None | Raised e _ => Some e end.

(** The code after the loop. *)
Definition scan_eof (s : scan_state) : list event :=
  if in_block s then [Warn (UnclosedBlock (block_name s))] else [].

(** The loop from a given state, to the end of the input. *)
Fixpoint scan_from (s : scan_state) (lines : list str)
  : list event * outcome :=
  match lines with
  | [] => (scan_eof s, Exhausted s)
  | line :: rest =>
      match scan_step s line with
      | Next s' evs =>
          let '(evs', o) := scan_from s' rest in (evs ++ evs', o)
      | Raise e evs => (evs, Raised e s)
      end
  end.

(** The loop over a prefix of the input: the events so far and the state
    reached, [None] once an exception has been raised. *)
Fixpoint scan_prefix (s : scan_state) (lines : list str)
  : list event * option scan_state :=
  match lines with
  | [] => ([], Some s)
  | line :: rest =>
      match scan_step s line with
      | Next s' evs =>
          let '(evs', o) := scan_prefix s' rest in (evs ++ evs', o)
      | Raise e evs => (evs, None)
      end
  end.

(** [_parse_source_blocks(iterable_src)] run to its end. *)
Definition _parse_source_blocks (iterable_src : list str)
  : list event * outcome :=
  scan_from scan_init iterable_src.

(** The pairs the generator yields, and the warnings it gives. *)
Definition yields (evs : list event) : list (option str * str) :=
  omap (fun e => match e with Yield n t => Some (n, t) | Warn _ => None end)
       evs.

Definition warnings (evs : list event) : list warning :=
  omap (fun e => match e with Warn w => Some w | Yield _ _ => None end) evs.

(** [io.StringIO(src)] iterated: the text cut after every line feed. *)
Fixpoint stringio_lines_aux (cur : str) (txt : str) : list str :=
  match txt with
  | [] => match cur with [] => [] | _ => [cur] end
  | c :: r =>
      if c =? 10 then (cur ++ [c]) :: stringio_lines_aux [] r
      else stringio_lines_aux (cur ++ [c]) r
  end.

Definition stringio_lines (src : str) : list str := stringio_lines_aux [] src.

(** The name the outside-block branch reads off a line, when it takes the
    line for an opener. *)
Definition opener_name (line : str) : option str :=
  if startswith line (lit "#") then
    let line := rstrip line in
    if negb (str_eqb line (lit "# ///")) && startswith line (lit "# /// ")
    then Some (strip (drop 4 (_removeprefix (drop 1 line) (lit " "))))
    else None
  else None.

(** The test the inside-block branch makes before it accumulates a line:
    a comment line that is not the closer. *)
Definition interior_line (line : str) : bool :=
  (str_eqb (rstrip line) (lit "#") || startswith line (lit "# "))
  && negb (str_eqb (rstrip line) (lit "# ///")).

(** What the inside-block branch appends to [block_data]. *)
Definition interior_text (line : str) : str :=
  _removeprefix (drop 1 line) (lit " ").

(** The diagnostics an accumulated line adds while [name] is open. *)
Definition interior_diagnostics (name : option str) (line : str)
  : list diagnostic :=
  if startswith line (lit "# /// ")
  then [NewBlockBeforeClose (strip (drop 5 line)) name] else [].

(** The specification's wording of the text kept from an interior line:
    exactly one comment character, then at most one space, removed. *)
Definition spec_interior_text (line : str) : str :=
  _removeprefix (_removeprefix line (lit "#")) (lit " ").

(** The specification's character class [[A-Za-z0-9-]]. *)
Definition in_name_class (c : char) : bool :=
  ((97 <=? c) && (c <=? 122)) || ((65 <=? c) && (c <=? 90))
  || ((48 <=? c) && (c <=? 57)) || (c =? 45).

(** ** What every state reached by a scan satisfies *)

Record scan_inv (s : scan_state) : Prop := ScanInv {
  inv_consumed :
    forall n, n ∈ consumed_blocks s -> _is_valid_type n = true;
  inv_open :
    in_block s = true ->
    exists n, block_name s = Some n /\ n ∈ consumed_blocks s;
  inv_closed : in_block s = false -> block_data s = [];
  inv_errors :
    Forall (fun d => exists x n,
                d = NewBlockBeforeClose x (Some n)
                /\ n ∈ consumed_blocks s)
           (possible_errors s)
}.

(** ** Python dictionaries, in insertion order *)

Module PyDict.
Section Dict.
Context {K V : Type} `{EqDecision K}.

Definition dict : Type := list (K * V).

(** [d.get(k)] *)
Fixpoint get (k : K) (d : dict) : option V :=
  match d with
  | [] => None
  | (k', v) :: r => if decide (k' = k) then Some v else get k r
  end.

(** [d[k] = v] *)
Fixpoint set (k : K) (v : V) (d : dict) : dict :=
  match d with
  | [] => [(k, v)]
  | (k', v') :: r =>
      if decide (k' = k) then (k', v) :: r else (k', v') :: set k v r
  end.

(** [d.pop(k, default)]: the dictionary that is left. *)
Fixpoint remove (k : K) (d : dict) : dict :=
  match d with
  | [] => []
  | (k', v') :: r =>
      if decide (k' = k) then r else (k', v') :: remove k r
  end.

(** [{k: v for k, v in pairs}] *)
Definition of_pairs (pairs : list (K * V)) : dict :=
  foldl (fun d kv => set kv.1 kv.2 d) [] pairs.
End Dict.
#[global] Arguments dict : clear implicits.
End PyDict.

(** ** The parser object and its constructor *)

(** [src_path] is a [str] or an [os.PathLike]; a path object is true
    whatever it holds, a string is true when it is not empty. *)
Inductive path_arg : Type :=
  | PathStr (s : str)
  | PathLike (s : str).

Record parser : Type := Parser {
  src : option str;
  src_path : option path_arg;
  encoding : str;
  self_possible_errors : list diagnostic
}.

(** Truth values of the two constructor arguments ([None] is false). *)
Definition src_true (a : option str) : bool :=
  match a with Some (_ :: _) => true | _ => false end.

Definition src_path_true (a : option path_arg) : bool :=
  match a with
  | Some (PathStr (_ :: _)) => true
  | Some (PathLike _) => true
  | _ => false
  end.

(** [EmbeddedMetadataParser.__init__], with its keyword arguments [src],
    [src_path] and [encoding]. *)
Definition __init__ (src : option str) (src_path : option path_arg)
    (encoding : str) : exn + parser :=
  if src_true src && src_path_true src_path then inl ProvideOnlyOne
  else if negb (src_true src || src_path_true src_path)
  then inl MustProvideOne
  else inr {| src := src; src_path := src_path; encoding := encoding;
              self_possible_errors := [] |}.

Definition from_path (src_path : path_arg) (encoding : str) : exn + parser :=
  __init__ None (Some src_path) encoding.

Definition from_string (src : str) : exn + parser :=
  __init__ (Some src) None (lit "utf-8").

(** ** The facade methods *)

(** [get_first_metadata_block] stops the generator at the first block it
    wants: the warnings given up to there, [self.possible_errors] as the
    generator leaves it, and the text found or the exception. *)
Fixpoint first_yield (name : str) (seen : list warning) (evs : list event)
  : list warning + (list warning * str) :=
  match evs with
  | [] => inl seen
  | Warn w :: r => first_yield name (seen ++ [w]) r
  | Yield n t :: r =>
      if decide (n = Some name) then inr (seen, t) else first_yield name seen r
  end.

Fixpoint first_from (name : str) (s : scan_state) (lines : list str)
  : list warning * list diagnostic * (exn + str) :=
  match lines with
  | [] => (warnings (scan_eof s), possible_errors s, inl (KeyError name))
  | line :: rest =>
      match scan_step s line with
      | Raise e evs => (warnings evs, possible_errors s, inl e)
      | Next s' evs =>
          match first_yield name [] evs with
          | inr (ws, t) => (ws, possible_errors s', inr t)
          | inl ws =>
              let '(ws', errs, r) := first_from name s' rest in
              (ws ++ ws', errs, r)
          end
      end
  end.

(** The parser object together with what [warnings.warn] has been given. *)
Record world : Type := World {
  obj : parser;
  warned : list warning
}.

Definition set_possible_errors (p : parser) (errs : list diagnostic)
  : parser :=
  {| src := src p; src_path := src_path p; encoding := encoding p;
     self_possible_errors := errs |}.

(** A method either returns or raises, and may change the world. *)
Definition M (A : Type) : Type := world -> (exn + A) * world.

Definition ret {A} (a : A) : M A := fun w => (inr a, w).
Definition raise {A} (e : exn) : M A := fun w => (inl e, w).
Definition lift {A} (r : exn + A) : M A := fun w => (r, w).
Definition bind {A B} (m : M A) (k : A -> M B) : M B :=
  fun w =>
    match m w with
    | (inr a, w') => k a w'
    | (inl e, w') => (inl e, w')
    end.

(** [try: m / except KeyError: None] *)
Definition try_KeyError {A} (m : M A) : M (option A) :=
  fun w =>
    match m w with
    | (inr a, w') => (inr (Some a), w')
    | (inl (KeyError _), w') => (inr None, w')
    | (inl e, w') => (inl e, w')
    end.

Notation "x <<- m ;; k" := (bind m (fun x => k))
  (at level 100, m at next level, right associativity).

(** Sequencing of steps that may raise but do not touch the world. *)
Definition and_then {A B} (r : exn + A) (k : A -> exn + B) : exn + B :=
  match r with inl e => inl e | inr a => k a end.

Notation "x <-! r ;; k" := (and_then r (fun x => k))
  (at level 100, r at next level, right associativity).

(** A method that leaves the source of the parser as the constructor
    stored it. *)
Definition same_source (p p' : parser) : Prop :=
  src p' = src p /\ src_path p' = src_path p /\ encoding p' = encoding p.

Definition keeps_source {A} (m : M A) : Prop :=
  forall w, same_source (obj w) (obj (m w).2).

Definition PYTHON_VERSION_KEY : str := lit "requires-python".
Definition DEPENDENCIES_KEY : str := lit "dependencies".

(** What is left of a run of [iter_raw_metadata_blocks] consumed to its
    end. *)
Record generator_run : Type := GeneratorRun {
  gr_events : list event;
  gr_raised : option exn;
  gr_errors : list diagnostic
}.

Section Facade.

(** The objects of [packaging], opaque to this module. *)
Context {Spec Req : Type}.

(** Python values: what [tomllib.loads] builds, [None], and the objects
    of [packaging]. A float is its IEEE 754 binary64 bit pattern. *)
Inductive pyval : Type :=
  | VNone
  | VStr (s : str)
  | VInt (z : Z)
  | VBool (b : bool)
  | VFloat (bits : Z)
  | VDate (iso : str)
  | VList (l : list pyval)
  | VDict (d : list (str * pyval))
  | VSpec (x : Spec)
  | VReq (x : Req).

(** The collaborators: the file system, [tomllib.loads] (its error is
    the message of [TOMLDecodeError]), [SpecifierSet] and [Requirement]. *)
Variable open_text : path_arg -> str -> exn + list str.
Variable tomllib_loads : str -> str + PyDict.dict str pyval.
Variable SpecifierSet : pyval -> exn + Spec.
Variable Requirement : pyval -> exn + Req.

(** [bool(v)]; the source tests only values popped from the decoded
    document, which holds no [packaging] object. *)
Definition truthy (v : pyval) : bool :=
  match v with
  | VNone => false
  | VStr s => negb (bool_decide (s = []))
  | VInt z => negb (Z.eqb z 0)
  | VBool b => b
  | VFloat bits => negb (Z.eqb (Z.land bits (2 ^ 63 - 1)) 0)
  | VDate _ => true
  | VList l => match l with [] => false | _ => true end
  | VDict d => match d with [] => false | _ => true end
  | VSpec _ => true
  | VReq _ => true
  end.

(** [sub in txt] on strings. *)
Fixpoint str_contains (txt sub : str) : bool :=
  startswith txt sub
  || match txt with [] => false | _ :: r => str_contains r sub end.

(** [k in v] for a string [k]. *)
Definition py_contains (k : str) (v : pyval) : exn + bool :=
  match v with
  | VDict d => inr (bool_decide (is_Some (PyDict.get k d)))
  | VList l =>
      inr (existsb (fun x => match x with
                             | VStr s => str_eqb s k
                             | _ => false
                             end) l)
  | VStr s => inr (str_contains s k)
  | _ => inl TypeError
  end.

(** [v[k] = x] for a string [k]. *)
Definition py_setitem (v : pyval) (k : str) (x : pyval) : exn + pyval :=
  match v with
  | VDict d => inr (VDict (PyDict.set k x d))
  | _ => inl TypeError
  end.

(** [v.pop(k, default)]: the value popped and the container left. *)
Definition py_pop (v : pyval) (k : str) (dflt : pyval)
  : exn + (pyval * pyval) :=
  match v with
  | VDict d =>
      inr (default dflt (PyDict.get k d), VDict (PyDict.remove k d))
  | VList _ => inl TypeError
  | _ => inl AttributeError
  end.

(** [for spec in v] *)
Definition py_iter (v : pyval) : exn + list pyval :=
  match v with
  | VList l => inr l
  | VStr s => inr (map (fun c => VStr [c]) s)
  | VDict d => inr (map (fun kv => VStr kv.1) d)
  | _ => inl TypeError
  end.

(** [self.src] or the opened [self.src_path], as lines; [None] when
    neither is true and the generator ends at once. *)
Definition source_lines (p : parser) : option (exn + list str) :=
  if src_true (src p)
  then Some (inr (stringio_lines (default [] (src p))))
  else if src_path_true (src_path p)
  then match src_path p with
       | Some path => Some (open_text path (encoding p))
       | None => None
       end
  else None.

(** [iter_raw_metadata_blocks], consumed to its end. *)
Definition iter_raw_metadata_blocks (p : parser) : generator_run :=
  match source_lines p with
  | Some (inr lines) =>
      let '(evs, o) := _parse_source_blocks lines in
      match o with
      | Exhausted s =>
          {| gr_events := evs; gr_raised := None;
             gr_errors := possible_errors s |}
      | Raised e s =>
          {| gr_events := evs; gr_raised := Some e;
             gr_errors := possible_errors s |}
      end
  | Some (inl e) =>
      {| gr_events := []; gr_raised := Some e;
         gr_errors := self_possible_errors p |}
  | None =>
      {| gr_events := []; gr_raised := None;
         gr_errors := self_possible_errors p |}
  end.

(** The property [metadata_blocks]: the dictionary is returned only when
    the comprehension has consumed the whole generator. *)
Definition metadata_blocks : M (PyDict.dict (option str) str) :=
  fun w =>
    let r := iter_raw_metadata_blocks (obj w) in
    let w' := {| obj := set_possible_errors (obj w) (gr_errors r);
                 warned := warned w ++ warnings (gr_events r) |} in
    match gr_raised r with
    | Some e => (inl e, w')
    | None => (inr (PyDict.of_pairs (yields (gr_events r))), w')
    end.

(** [get_first_metadata_block(name)] *)
Definition get_first_metadata_block (name : str) : M str :=
  fun w =>
    match source_lines (obj w) with
    | Some (inr lines) =>
        let '(ws, errs, r) := first_from name scan_init lines in
        (r, {| obj := set_possible_errors (obj w) errs;
               warned := warned w ++ ws |})
    | Some (inl e) => (inl e, w)
    | None => (inl (KeyError name), w)
    end.

(** [get_pyproject_raw()] *)
Definition get_pyproject_raw : M str :=
  blocks <<- metadata_blocks ;;
  match PyDict.get (Some (lit "pyproject")) blocks with
  | Some raw => ret raw
  | None => raise (KeyError (lit "pyproject"))
  end.

(** [get_pyproject_toml()]; a [TOMLDecodeError] with a non-empty list is
    the one whose message names the possible syntax errors. *)
Definition get_pyproject_toml : M (PyDict.dict str pyval) :=
  raw <<- get_pyproject_raw ;;
  match tomllib_loads raw with
  | inr data => ret data
  | inl e =>
      fun w =>
        match self_possible_errors (obj w) with
        | [] => (inl (TOMLDecodeError e []), w)
        | errs => (inl (TOMLDecodeError e errs), w)
        end
  end.

(** The properties [pyproject_raw] and [pyproject_toml]. *)
Definition pyproject_raw : M (option str) := try_KeyError get_pyproject_raw.

Definition pyproject_toml : M (option (PyDict.dict str pyval)) :=
  try_KeyError get_pyproject_toml.

(** [dep_data.get("run", {})] *)
Definition run_table (dep_data : PyDict.dict str pyval) : pyval :=
  default (VDict []) (PyDict.get (lit "run") dep_data).

(** The two [if ... not in run_block] statements of
    [plain_script_dependencies]. *)
Definition plain_defaults (run_block : pyval) : exn + pyval :=
  has_pyver <-! py_contains PYTHON_VERSION_KEY run_block ;;
  run_block <-! (if negb has_pyver
                 then py_setitem run_block PYTHON_VERSION_KEY VNone
                 else inr run_block) ;;
  has_deps <-! py_contains DEPENDENCIES_KEY run_block ;;
  if negb has_deps
  then py_setitem run_block DEPENDENCIES_KEY (VList [])
  else inr run_block.

(** The property [plain_script_dependencies]. *)
Definition plain_script_dependencies : M pyval :=
  dep_data <<- try_KeyError get_pyproject_toml ;;
  let run_block :=
    match dep_data with
    | None => VDict []
    | Some dep_data => run_table dep_data
    end in
  lift (plain_defaults run_block).

(** [[_laz.Requirement(spec) for spec in deps]] *)
Fixpoint requirements (specs : list pyval) : exn + list pyval :=
  match specs with
  | [] => inr []
  | spec :: rest =>
      r <-! Requirement spec ;;
      rs <-! requirements rest ;;
      inr (VReq r :: rs)
  end.

(** The [else] branch of [script_dependencies] up to the two final
    assignments: the two values parsed and the table left. *)
Definition typed_values (run_block : pyval)
  : exn + (pyval * pyval * pyval) :=
  popped <-! py_pop run_block PYTHON_VERSION_KEY VNone ;;
  let '(pyver, run_block) := popped in
  requires_python <-! (if truthy pyver
                       then x <-! SpecifierSet pyver ;; inr (VSpec x)
                       else inr VNone) ;;
  popped <-! py_pop run_block DEPENDENCIES_KEY (VList []) ;;
  let '(deps, run_block) := popped in
  dependencies <-! (if truthy deps
                    then specs <-! py_iter deps ;;
                         rs <-! requirements specs ;;
                         inr (VList rs)
                    else inr (VList [])) ;;
  inr (requires_python, dependencies, run_block).

(** The property [script_dependencies]. *)
Definition script_dependencies : M pyval :=
  block <<- try_KeyError get_pyproject_toml ;;
  lift (
    vals <-! match block with
             | None => inr (VNone, VList [], VDict [])
             | Some block => typed_values (run_table block)
             end ;;
    let '(requires_python, dependencies, run_block) := vals in
    run_block <-! py_setitem run_block PYTHON_VERSION_KEY requires_python ;;
    py_setitem run_block DEPENDENCIES_KEY dependencies).

(** [packaging] accepts what [script_dependencies] hands to it from the
    table [run]. *)
Definition collaborators_accept (run : PyDict.dict str pyval) : Prop :=
  let pyver := default VNone (PyDict.get PYTHON_VERSION_KEY run) in
  let deps := default (VList []) (PyDict.get DEPENDENCIES_KEY run) in
  (truthy pyver = true -> exists x, SpecifierSet pyver = inr x)
  /\ (truthy deps = true ->
      exists specs,
        py_iter deps = inr specs
        /\ Forall (fun spec => exists r, Requirement spec = inr r) specs).

End Facade.

(** Keys other than the two the views write map to the same values in
    [run] and in [m], and are absent from both otherwise. *)
Definition other_keys_kept {Spec Req : Type}
    (run m : PyDict.dict str (@pyval Spec Req)) : Prop :=
  forall k, k <> PYTHON_VERSION_KEY -> k <> DEPENDENCIES_KEY ->
            PyDict.get k m = PyDict.get k run.

(** ** Sources used in the statements *)

(** The first example of the specification. *)
Definition example_source : str :=
  lit "# /// pyproject" ++ nl
  ++ lit "# [run]" ++ nl
  ++ lit "# dependencies = [" ++ dquote ++ lit "requests" ++ dquote
  ++ lit "]" ++ nl
  ++ lit "# ///" ++ nl.

Definition example_text : str :=
  lit "[run]" ++ nl
  ++ lit "dependencies = [" ++ dquote ++ lit "requests" ++ dquote
  ++ lit "]" ++ nl.



(** A script whose [run] table has a key of its own, with collaborators
    that answer for it: [tomllib.loads] on the text of its block, and
    [packaging] objects that keep the string they were built from. *)
Definition views_source : str :=
  lit "# /// pyproject" ++ nl
  ++ lit "# [run]" ++ nl
  ++ lit "# dependencies = [" ++ dquote ++ lit "requests" ++ dquote
  ++ lit "]" ++ nl
  ++ lit "# retries = 3" ++ nl
  ++ lit "# ///" ++ nl.

Definition views_text : str :=
  lit "[run]" ++ nl
  ++ lit "dependencies = [" ++ dquote ++ lit "requests" ++ dquote
  ++ lit "]" ++ nl
  ++ lit "retries = 3" ++ nl.

Definition views_run : PyDict.dict str (@pyval str str) :=
  [(lit "dependencies", VList [VStr (lit "requests")]);
   (lit "retries", VInt 3)].

Definition views_document : PyDict.dict str (@pyval str str) :=
  [(lit "run", VDict views_run)].

Definition views_loads (raw : str)
  : str + PyDict.dict str (@pyval str str) :=
  if str_eqb raw views_text then inr views_document
  else inl (lit "other documents are not decoded here").

Definition no_files (path : path_arg) (encoding : str) : exn + list str :=
  inl FileError.

Definition specifier_of (v : @pyval str str) : exn + str :=
  match v with VStr s => inr s | _ => inl InvalidSpecifier end.

Definition requirement_of (v : @pyval str str) : exn + str :=
  match v with VStr s => inr s | _ => inl InvalidRequirement end.

Definition views_world : world :=
  {| obj := {| src := Some views_source; src_path := None;
               encoding := lit "utf-8"; self_possible_errors := [] |};
     warned := [] |}.



(** ** Well-formed blocks in a source *)

(** A stretch of a source: lines that do not begin with the opener prefix,
    then one block, written as its opener, its interior lines and its
    closer. *)
Record block_src : Type := BlockSrc {
  b_before : list str;
  b_opener : str;
  b_name : str;
  b_interior : list str;
  b_closer : str
}.

Definition block_lines (b : block_src) : list str :=
  b_before b ++ b_opener b :: b_interior b ++ [b_closer b].

Definition not_opener_prefixed (line : str) : bool :=
  negb (startswith line (lit "# /// ")).

Definition well_formed_block (b : block_src) : Prop :=
  forallb not_opener_prefixed (b_before b) = true
  /\ opener_name (b_opener b) = Some (b_name b)
  /\ _is_valid_type (b_name b) = true
  /\ forallb interior_line (b_interior b) = true
  /\ rstrip (b_closer b) = lit "# ///".

(** What the scan yields for such a block. *)
Definition block_yield (b : block_src) : option str * str :=
  (Some (b_name b), join (map interior_text (b_interior b))).

(** The names yielded so far, against the state the loop is in: they are
    distinct, they have all been recorded as seen, and the block that is
    open, if one is, is not among them. *)
Definition seen_ok (seen : list (option str)) (s : scan_state) : Prop :=
  NoDup seen
  /\ (forall n, n ∈ seen ->
       exists name, n = Some name /\ name ∈ consumed_blocks s)
  /\ (in_block s = true -> block_name s ∉ seen).

(** ** Further sources used in the statements *)

(** A script with the same block twice. *)
Definition duplicate_source : str :=
  lit "# /// pyproject" ++ nl
  ++ lit "# a = 1" ++ nl
  ++ lit "# ///" ++ nl
  ++ lit "# /// pyproject" ++ nl
  ++ lit "# b = 2" ++ nl
  ++ lit "# ///" ++ nl.

(** A script whose block holds a line that looks like an opener and is
    not valid TOML, one whose [run] table has an empty [requires-python],
    and one whose [run] entry is a number; [tomllib.loads] answering for
    their texts. *)
Definition broken_source : str :=
  lit "# /// pyproject" ++ nl
  ++ lit "# /// other" ++ nl
  ++ lit "# ///" ++ nl.

Definition broken_text : str := lit "/// other" ++ nl.

Definition empty_pyver_source : str :=
  lit "# /// pyproject" ++ nl
  ++ lit "# [run]" ++ nl
  ++ lit "# requires-python = " ++ dquote ++ dquote ++ nl
  ++ lit "# ///" ++ nl.

Definition empty_pyver_text : str :=
  lit "[run]" ++ nl
  ++ lit "requires-python = " ++ dquote ++ dquote ++ nl.

Definition number_run_source : str :=
  lit "# /// pyproject" ++ nl
  ++ lit "# run = 5" ++ nl
  ++ lit "# ///" ++ nl.

Definition number_run_text : str := lit "run = 5" ++ nl.

Definition edge_loads (raw : str)
  : str + PyDict.dict str (@pyval str str) :=
  if str_eqb raw empty_pyver_text
  then inr [(lit "run", VDict [(lit "requires-python", VStr [])])]
  else if str_eqb raw number_run_text
  then inr [(lit "run", VInt 5)]
  else inl (lit "Invalid statement (at line 1, column 1)").

Definition world_of (text : str) : world :=
  {| obj := {| src := Some text; src_path := None;
               encoding := lit "utf-8"; self_possible_errors := [] |};
     warned := [] |}.

(** * Properties *)

(** ** Strings *)

Lemma str_eqb_eq (a b : str) : str_eqb a b = true <-> a = b.
Proof. unfold str_eqb. apply bool_decide_eq_true. Qed.

Lemma str_eqb_neq (a b : str) : str_eqb a b = false <-> a <> b.
Proof. unfold str_eqb. apply bool_decide_eq_false. Qed.

Lemma startswith_app (p r : str) : startswith (p ++ r) p = true.
Proof. induction p as [|c p IH]; simpl; [done|]. by rewrite N.eqb_refl. Qed.

Lemma startswith_split (txt p : str) :
  startswith txt p = true -> txt = p ++ drop (length p) txt.
Proof.
  revert txt. induction p as [|c p IH]; intros [|d txt]; simpl; try done.
  intros [Hc Hp]%andb_true_iff. apply N.eqb_eq in Hc. subst d.
  f_equal. by apply IH.
Qed.

Lemma rstrip_nil (txt : str) :
  rstrip txt = [] <-> forallb is_space txt = true.
Proof.
  induction txt as [|c r IH]; simpl; [done|].
  destruct (rstrip r) eqn:E.
  - destruct (is_space c); simpl; [|done].
    split; [intros _; by apply IH | done].
  - split; [done|]. intros [_ H]%andb_true_iff. by apply IH in H.
Qed.

Lemma rstrip_app_spaces (a ws : str) :
  forallb is_space ws = true -> rstrip (a ++ ws) = rstrip a.
Proof.
  intros H. induction a as [|c a IH]; simpl.
  - by apply rstrip_nil.
  - by rewrite IH.
Qed.

Lemma rstrip_split (txt : str) :
  exists ws, txt = rstrip txt ++ ws /\ forallb is_space ws = true.
Proof.
  induction txt as [|c r [ws [E H]]]; simpl.
  - by exists [].
  - destruct (rstrip r) as [|d r'] eqn:Er.
    + destruct (is_space c) eqn:Ec.
      * exists (c :: r). split; [done|]. simpl. rewrite Ec. simpl.
        by apply rstrip_nil.
      * exists r. split; [done|]. by apply rstrip_nil.
    + exists ws. split; [|done]. simpl. by f_equal.
Qed.

Lemma strip_spaces (ws : str) : forallb is_space ws = true -> strip ws = [].
Proof. intros H. unfold strip. by rewrite (proj2 (rstrip_nil ws) H). Qed.

(** A line that begins with the opener prefix and carries a name is not
    the closer. *)
Lemma named_opener_not_closer (line : str) :
  startswith line (lit "# /// ") = true ->
  strip (drop 5 line) <> [] ->
  rstrip line <> lit "# ///".
Proof.
  intros Hp Hn Hc. apply Hn.
  destruct (rstrip_split line) as [ws [E Hws]]. rewrite Hc in E.
  rewrite E. simpl. by apply strip_spaces.
Qed.

(** ** The name class *)

Lemma char_in_valid_class (c : char) :
  char_in c (lit "abcdefghijklmnopqrstuvwxyz"
             ++ lit "ABCDEFGHIJKLMNOPQRSTUVWXYZ"
             ++ lit "0123456789" ++ lit "-") = in_name_class c.
Proof.
  destruct (N.ltb_spec c 128) as [Hlt|Hge].
  - assert (Hall : forallb (fun n =>
        bool_decide (char_in (N.of_nat n)
             (lit "abcdefghijklmnopqrstuvwxyz"
              ++ lit "ABCDEFGHIJKLMNOPQRSTUVWXYZ"
              ++ lit "0123456789" ++ lit "-")
           = in_name_class (N.of_nat n))) (seq 0 128) = true)
      by (vm_compute; reflexivity).
    rewrite forallb_forall in Hall.
    specialize (Hall (N.to_nat c)).
    rewrite N2Nat.id in Hall.
    eapply bool_decide_eq_true_1, Hall, in_seq. lia.
  - transitivity false.
    + unfold char_in. apply not_true_is_false. intros H.
      apply existsb_exists in H as [x [Hin Hx]]. apply N.eqb_eq in Hx.
      subst x. simpl in Hin.
      repeat (destruct Hin as [Hin|Hin]; [lia|]). done.
    + symmetry. unfold in_name_class.
      repeat match goal with
             | |- context [?a <=? ?b] =>
                 destruct (N.leb_spec a b); try lia
             | |- context [?a =? ?b] =>
                 destruct (N.eqb_spec a b); try lia
             end; reflexivity.
Qed.

Lemma is_valid_type_class (txt : str) :
  _is_valid_type txt = forallb in_name_class txt.
Proof.
  unfold _is_valid_type. cbv zeta.
  induction txt as [|c r IH]; [done|]. cbn [forallb].
  by rewrite IH, char_in_valid_class.
Qed.

Lemma alias_name_invalid : _is_valid_type (lit "pyproject.toml") = false.
Proof. vm_compute. reflexivity. Qed.

(** ** One iteration of the loop *)

Lemma scan_step_outside (s : scan_state) (line : str) :
  in_block s = false ->
  scan_step s line =
    match opener_name line with
    | None => Next s []
    | Some name =>
        if bool_decide (name ∈ consumed_blocks s)
        then Raise (MultipleBlocks name) []
        else
          Next {| in_block := _is_valid_type name;
                  block_name := Some name;
                  block_data := block_data s;
                  consumed_blocks :=
                    if _is_valid_type name
                    then {[name]} ∪ consumed_blocks s
                    else consumed_blocks s;
                  possible_errors := possible_errors s |}
               (if str_eqb name (lit "pyproject.toml")
                then [Warn (ShouldBePyproject name)] else [])
    end.
Proof.
  intros H. unfold scan_step, opener_name. rewrite H.
  destruct (startswith line (lit "#")); [|done].
  cbv zeta. destruct (negb _ && _); [|done].
  destruct (bool_decide _); [done|].
  by destruct (_is_valid_type _).
Qed.

Lemma scan_step_interior (s : scan_state) (line : str) :
  in_block s = true ->
  interior_line line = true ->
  scan_step s line =
    Next {| in_block := true; block_name := block_name s;
            block_data := block_data s ++ [interior_text line];
            consumed_blocks := consumed_blocks s;
            possible_errors :=
              possible_errors s
                ++ interior_diagnostics (block_name s) line |} [].
Proof.
  intros H [Hc Hn]%andb_true_iff. apply negb_true_iff in Hn.
  unfold scan_step, interior_diagnostics, interior_text.
  rewrite H, Hc, Hn. cbn [negb].
  destruct (startswith line (lit "# /// ")); [done|]. by rewrite app_nil_r.
Qed.

Lemma closer_is_comment (line : str) :
  rstrip line = lit "# ///" -> startswith line (lit "# ") = true.
Proof.
  intros H. destruct (rstrip_split line) as [ws [E _]].
  rewrite H in E. by rewrite E.
Qed.

Lemma scan_step_closer (s : scan_state) (line : str) :
  in_block s = true ->
  rstrip line = lit "# ///" ->
  scan_step s line =
    Next (reset s) [Yield (block_name s) (join (block_data s))].
Proof.
  intros H Hc. unfold scan_step.
  rewrite H, (closer_is_comment _ Hc), orb_true_r, Hc. done.
Qed.

Lemma scan_step_unclosed (s : scan_state) (line : str) :
  in_block s = true ->
  rstrip line <> lit "#" ->
  startswith line (lit "# ") = false ->
  scan_step s line = Next (reset s) [Warn (UnclosedBlock (block_name s))].
Proof.
  intros H Hh Hs. unfold scan_step.
  by rewrite H, (proj2 (str_eqb_neq _ _) Hh), Hs.
Qed.

(** ** Runs *)

Lemma scan_prefix_app (s s' : scan_state) (pre rest : list str)
    (evs : list event) :
  scan_prefix s pre = (evs, Some s') ->
  scan_prefix s (pre ++ rest)
  = (evs ++ (scan_prefix s' rest).1, (scan_prefix s' rest).2).
Proof.
  revert s evs. induction pre as [|line pre IH]; intros s evs H; simpl in *.
  - simplify_eq. by destruct (scan_prefix s' rest).
  - destruct (scan_step s line) as [s1 evs1|]; [|done].
    destruct (scan_prefix s1 pre) as [evs2 o] eqn:E.
    simplify_eq. rewrite (IH _ _ E).
    by rewrite app_assoc.
Qed.

Lemma scan_from_app (s s' : scan_state) (pre rest : list str)
    (evs : list event) :
  scan_prefix s pre = (evs, Some s') ->
  scan_from s (pre ++ rest)
  = (evs ++ (scan_from s' rest).1, (scan_from s' rest).2).
Proof.
  revert s evs. induction pre as [|line pre IH]; intros s evs H; simpl in *.
  - simplify_eq. by destruct (scan_from s' rest).
  - destruct (scan_step s line) as [s1 evs1|]; [|done].
    destruct (scan_prefix s1 pre) as [evs2 o] eqn:E.
    simplify_eq. rewrite (IH _ _ E).
    by rewrite app_assoc.
Qed.

Lemma scan_prefix_interior (s : scan_state) (mid : list str) :
  in_block s = true ->
  forallb interior_line mid = true ->
  scan_prefix s mid =
    ([], Some {| in_block := true; block_name := block_name s;
                 block_data := block_data s ++ map interior_text mid;
                 consumed_blocks := consumed_blocks s;
                 possible_errors :=
                   possible_errors s
                     ++ concat (map (interior_diagnostics (block_name s))
                                    mid) |}).
Proof.
  revert s. induction mid as [|line mid IH]; intros s H Hm; simpl.
  - rewrite !app_nil_r. destruct s; simpl in *. by subst.
  - apply andb_true_iff in Hm as [Hl Hm].
    rewrite (scan_step_interior _ _ H Hl).
    rewrite IH by done. simpl. by rewrite <- !app_assoc.
Qed.

(** ** What every reachable state satisfies *)

Ltac fields :=
  cbn [in_block block_name block_data consumed_blocks possible_errors
       reset scan_init] in *.

Lemma scan_inv_init : scan_inv scan_init.
Proof. split; simpl; try done; set_solver. Qed.

Lemma scan_step_consumed (s s' : scan_state) (line : str)
    (evs : list event) :
  scan_step s line = Next s' evs -> consumed_blocks s ⊆ consumed_blocks s'.
Proof.
  unfold scan_step. intros H.
  repeat case_match; simplify_eq; fields; set_solver.
Qed.

Lemma scan_inv_step (s s' : scan_state) (line : str) (evs : list event) :
  scan_inv s -> scan_step s line = Next s' evs -> scan_inv s'.
Proof.
  intros [Hc Ho Hd He] H.
  assert (Hsub := scan_step_consumed _ _ _ _ H).
  destruct (in_block s) eqn:Hin.
  - destruct (Ho eq_refl) as [n [Hn Hcn]].
    unfold scan_step in H. rewrite Hin in H.
    repeat case_match; simplify_eq; split; fields; try done; eauto.
    apply Forall_app. split; [done|]. apply Forall_singleton.
    rewrite Hn. eauto.
  - rewrite (scan_step_outside _ _ Hin) in H.
    repeat case_match; simplify_eq; split; fields; try done; eauto.
    all: try (intros n [->%elem_of_singleton|Hn]%elem_of_union; by eauto).
    all: try (intros _; eexists; split; [done|]; set_solver).
    all: eapply Forall_impl; [exact He|]; intros d (x & n & -> & Hn);
      exists x, n; split; [done|]; set_solver.
Qed.

Lemma scan_inv_prefix (s s' : scan_state) (lines : list str)
    (evs : list event) :
  scan_inv s -> scan_prefix s lines = (evs, Some s') -> scan_inv s'.
Proof.
  revert s evs. induction lines as [|line lines IH]; intros s evs Hi H;
    simpl in H.
  - by simplify_eq.
  - destruct (scan_step s line) as [s1 evs1|] eqn:E; [|done].
    destruct (scan_prefix s1 lines) as [evs2 o] eqn:E2. simplify_eq.
    eapply IH; [|exact E2]. eapply scan_inv_step; eauto.
Qed.


Lemma scan_step_raise (s : scan_state) (line : str) (e : exn)
    (evs : list event) :
  scan_step s line = Raise e evs ->
  evs = [] /\ in_block s = false
  /\ exists name, e = MultipleBlocks name /\ opener_name line = Some name
                  /\ name ∈ consumed_blocks s.
Proof.
  intros H. destruct (in_block s) eqn:Hin.
  - unfold scan_step in H. rewrite Hin in H. by repeat case_match.
  - rewrite (scan_step_outside _ _ Hin) in H.
    destruct (opener_name line) as [name|]; [|done].
    case_bool_decide; [|done]. simplify_eq. eauto 10.
Qed.

Ltac no_yield H :=
  solve [ by apply elem_of_nil in H
        | by apply list_elem_of_singleton in H ].

Lemma scan_step_yields_valid (s s' : scan_state) (line : str)
    (evs : list event) (n : option str) (t : str) :
  scan_inv s -> scan_step s line = Next s' evs -> Yield n t ∈ evs ->
  exists name, n = Some name /\ _is_valid_type name = true.
Proof.
  intros [Hc Ho _ _] H Hy. destruct (in_block s) eqn:Hin.
  - destruct (Ho eq_refl) as [name [Hn Hcn]].
    unfold scan_step in H. rewrite Hin in H.
    destruct (negb _) in H; [simplify_eq; no_yield Hy|].
    destruct (str_eqb _ _) in H; simplify_eq; [|no_yield Hy].
    apply list_elem_of_singleton in Hy. simplify_eq.
    exists name. split; [done|]. by apply Hc.
  - rewrite (scan_step_outside _ _ Hin) in H.
    destruct (opener_name line) as [name|]; [|simplify_eq; no_yield Hy].
    case_bool_decide; [done|]. simplify_eq.
    destruct (str_eqb _ _); no_yield Hy.
Qed.

Lemma scan_from_yields_valid (s : scan_state) (lines : list str)
    (n : option str) (t : str) :
  scan_inv s -> Yield n t ∈ (scan_from s lines).1 ->
  exists name, n = Some name /\ _is_valid_type name = true.
Proof.
  revert s. induction lines as [|line lines IH]; intros s Hi Hy; simpl in Hy.
  - unfold scan_eof in Hy. destruct (in_block s).
    + by apply list_elem_of_singleton in Hy.
    + by apply elem_of_nil in Hy.
  - destruct (scan_step s line) as [s1 evs1|e evs1] eqn:E.
    + destruct (scan_from s1 lines) as [evs2 o] eqn:E2. simpl in Hy.
      apply elem_of_app in Hy as [Hy|Hy].
      * eapply scan_step_yields_valid; eauto.
      * apply (IH s1); [by eapply scan_inv_step|]. by rewrite E2.
    + apply scan_step_raise in E as [-> _]. by apply elem_of_nil in Hy.
Qed.

Lemma yields_elem (evs : list event) (n : option str) (t : str) :
  (n, t) ∈ yields evs <-> Yield n t ∈ evs.
Proof.
  unfold yields. rewrite list_elem_of_omap. split.
  - intros [[n' t'|w] [Hin Heq]]; by simplify_eq.
  - intros H. by exists (Yield n t).
Qed.

Lemma parse_yields_valid (lines : list str) (n : option str) (t : str) :
  (n, t) ∈ yields (_parse_source_blocks lines).1 ->
  exists name, n = Some name /\ _is_valid_type name = true.
Proof.
  intros H%yields_elem.
  eapply scan_from_yields_valid; [apply scan_inv_init | exact H].
Qed.

(** Outside a block the loop does not read [block_name]: two states that
    differ in nothing else behave alike. *)
Lemma scan_from_outside_name (s s1 : scan_state) (lines : list str) :
  in_block s = false -> in_block s1 = false ->
  block_data s1 = block_data s ->
  consumed_blocks s1 = consumed_blocks s ->
  possible_errors s1 = possible_errors s ->
  (scan_from s1 lines).1 = (scan_from s lines).1
  /\ outcome_exn (scan_from s1 lines).2 = outcome_exn (scan_from s lines).2.
Proof.
  revert s s1. induction lines as [|line lines IH];
    intros s s1 Hs Hs1 Hd Hc He; simpl.
  - unfold scan_eof. by rewrite Hs, Hs1.
  - rewrite (scan_step_outside _ _ Hs), (scan_step_outside _ _ Hs1).
    rewrite Hd, Hc, He.
    destruct (opener_name line) as [name|].
    + case_bool_decide; [done|].
      by destruct (scan_from _ lines).
    + specialize (IH s s1 Hs Hs1 Hd Hc He).
      destruct (scan_from s lines), (scan_from s1 lines).
      simpl in *. by destruct IH as [-> ->].
Qed.

(** * The claims *)

(** ** The alias name [pyproject.toml] *)

(** C1, as stated, fails: the block opened under the name
    [pyproject.toml] is warned about and then not captured. *)
Lemma C1_alias_block_not_yielded :
  let lines := [lit "# /// pyproject.toml" ++ nl;
                lit "# x = 1" ++ nl;
                lit "# ///" ++ nl] in
  opener_name (lit "# /// pyproject.toml" ++ nl)
    = Some (lit "pyproject.toml")
  /\ warnings (_parse_source_blocks lines).1
     = [ShouldBePyproject (lit "pyproject.toml")]
  /\ yields (_parse_source_blocks lines).1 = [].
Proof. vm_compute. done. Qed.

(** C1, amended: an opener-like line met outside a block whose trimmed
    name is exactly [pyproject.toml] gives one alias-suggestion warning and
    opens nothing: the scanner stays outside a block with its set of seen
    names unchanged, and no scan of any source that contains the line
    yields a block named [pyproject.toml]. *)
Theorem C1_alias_warned_not_opened
    (pre : list str) (evs : list event) (s : scan_state) (line : str) :
  scan_prefix scan_init pre = (evs, Some s) ->
  in_block s = false ->
  opener_name line = Some (lit "pyproject.toml") ->
  scan_step s line
  = Next {| in_block := false; block_name := Some (lit "pyproject.toml");
            block_data := block_data s;
            consumed_blocks := consumed_blocks s;
            possible_errors := possible_errors s |}
         [Warn (ShouldBePyproject (lit "pyproject.toml"))]
  /\ forall rest t,
       (Some (lit "pyproject.toml"), t)
         ∉ yields (_parse_source_blocks (pre ++ line :: rest)).1.
Proof.
  intros Hpre Hin Hname.
  assert (Hinv := scan_inv_prefix _ _ _ _ scan_inv_init Hpre).
  split.
  - rewrite (scan_step_outside _ _ Hin), Hname, alias_name_invalid.
    case_bool_decide as Hc; [|done].
    apply (inv_consumed _ Hinv) in Hc. by rewrite alias_name_invalid in Hc.
  - intros rest t Hy. apply parse_yields_valid in Hy as (name & E & V).
    injection E as <-. by rewrite alias_name_invalid in V.
Qed.

Lemma C1_alias_warned_not_opened_witness :
  scan_step scan_init (lit "# /// pyproject.toml" ++ nl)
  = Next {| in_block := false; block_name := Some (lit "pyproject.toml");
            block_data := []; consumed_blocks := ∅;
            possible_errors := [] |}
         [Warn (ShouldBePyproject (lit "pyproject.toml"))].
Proof.
  apply (C1_alias_warned_not_opened [] [] scan_init
           (lit "# /// pyproject.toml" ++ nl));
    vm_compute; reflexivity.
Defined.

(** ** Names outside the class *)

(** C5, as stated, fails in one word: an opener-like line with an invalid
    name is not always ignored silently. *)
Lemma C5_invalid_name_not_silent :
  let line := lit "# /// pyproject.toml" ++ nl in
  opener_name line = Some (lit "pyproject.toml")
  /\ forallb in_name_class (lit "pyproject.toml") = false
  /\ warnings (_parse_source_blocks [line]).1
     = [ShouldBePyproject (lit "pyproject.toml")].
Proof. vm_compute. done. Qed.

(** C5, amended: no scan yields a block whose name has a character
    outside [[A-Za-z0-9-]]; an opener-like line with such a name, met
    outside a block, yields nothing, raises nothing, records no diagnostic
    and leaves the scanner outside a block with the same seen names, so
    that the rest of the scan goes as if the line were absent; it is
    silent unless the name is exactly [pyproject.toml], which gets the one
    alias warning; and a line made of [# /// ] and trailing white space is
    never an opener. *)
Theorem C5_invalid_name_never_opens :
  (forall lines n t,
      (n, t) ∈ yields (_parse_source_blocks lines).1 ->
      exists name, n = Some name /\ forallb in_name_class name = true)
  /\ (forall pre evs s line name rest,
        scan_prefix scan_init pre = (evs, Some s) ->
        in_block s = false ->
        opener_name line = Some name ->
        forallb in_name_class name = false ->
        exists s',
          scan_step s line
          = Next s' (if str_eqb name (lit "pyproject.toml")
                     then [Warn (ShouldBePyproject name)] else [])
          /\ in_block s' = false
          /\ block_data s' = block_data s
          /\ consumed_blocks s' = consumed_blocks s
          /\ possible_errors s' = possible_errors s
          /\ (scan_from s' rest).1 = (scan_from s rest).1
          /\ outcome_exn (scan_from s' rest).2
             = outcome_exn (scan_from s rest).2)
  /\ (forall s ws,
        in_block s = false ->
        forallb is_space ws = true ->
        opener_name (lit "# /// " ++ ws) = None
        /\ scan_step s (lit "# /// " ++ ws) = Next s []).
Proof.
  split; [|split].
  - intros lines n t Hy. apply parse_yields_valid in Hy as (name & E & V).
    exists name. by rewrite <- is_valid_type_class.
  - intros pre evs s line name rest Hpre Hin Hname Hbad.
    rewrite <- is_valid_type_class in Hbad.
    assert (Hinv := scan_inv_prefix _ _ _ _ scan_inv_init Hpre).
    eexists. rewrite (scan_step_outside _ _ Hin), Hname, Hbad.
    case_bool_decide as Hc.
    { apply (inv_consumed _ Hinv) in Hc. by rewrite Hbad in Hc. }
    split; [reflexivity|]. fields. do 4 (split; [done|]).
    by apply scan_from_outside_name.
  - intros s ws Hin Hws.
    assert (Hn : opener_name (lit "# /// " ++ ws) = None).
    { unfold opener_name.
      replace (startswith (lit "# /// " ++ ws) (lit "#")) with true
        by reflexivity.
      cbv zeta. rewrite (rstrip_app_spaces _ _ Hws).
      by replace (rstrip (lit "# /// ")) with (lit "# ///")
        by (vm_compute; reflexivity). }
    split; [done|]. by rewrite (scan_step_outside _ _ Hin), Hn.
Qed.

Lemma C5_invalid_name_never_opens_witness :
  exists s',
    scan_step scan_init (lit "# /// my_block" ++ nl) = Next s' []
    /\ in_block s' = false /\ consumed_blocks s' = ∅.
Proof.
  destruct (proj1 (proj2 C5_invalid_name_never_opens) [] [] scan_init
              (lit "# /// my_block" ++ nl) (lit "my_block") [])
    as (s' & Hstep & Hin & _ & Hc & _);
    [vm_compute; reflexivity ..|].
  exists s'. repeat split; [exact Hstep | exact Hin | exact Hc].
Defined.

(** ** Lines met while a block is open *)

Lemma removeprefix_comment_space (line : str) :
  startswith line (lit "# ") = true ->
  _removeprefix (drop 1 line) (lit " ") = drop 2 line.
Proof. intros H. rewrite (startswith_split _ _ H). reflexivity. Qed.

(** C6: an opener-prefixed line with a name, met while a block is open,
    neither closes nor replaces the block: nothing is yielded or warned,
    the block stays open under its name, one diagnostic is appended to the
    list, and the line without its leading [# ] is appended to the block's
    accumulated lines. *)
Theorem C6_nested_opener_is_accumulated (s : scan_state) (line : str) :
  in_block s = true ->
  startswith line (lit "# /// ") = true ->
  strip (drop 5 line) <> [] ->
  scan_step s line
  = Next {| in_block := true; block_name := block_name s;
            block_data := block_data s ++ [drop 2 line];
            consumed_blocks := consumed_blocks s;
            possible_errors :=
              possible_errors s
                ++ [NewBlockBeforeClose (strip (drop 5 line))
                                        (block_name s)] |} [].
Proof.
  intros Hin Hp Hn.
  assert (Hc : startswith line (lit "# ") = true)
    by (rewrite (startswith_split _ _ Hp); reflexivity).
  assert (Hi : interior_line line = true).
  { unfold interior_line. rewrite Hc, orb_true_r.
    apply andb_true_iff. split; [done|]. apply negb_true_iff, str_eqb_neq.
    by apply named_opener_not_closer. }
  rewrite (scan_step_interior _ _ Hin Hi).
  unfold interior_text, interior_diagnostics.
  by rewrite Hp, (removeprefix_comment_space _ Hc).
Qed.

Lemma C6_nested_opener_is_accumulated_witness :
  scan_step {| in_block := true; block_name := Some (lit "pyproject");
               block_data := [lit "[run]" ++ nl];
               consumed_blocks := {[lit "pyproject"]};
               possible_errors := [] |}
            (lit "# /// not a name!" ++ nl)
  = Next {| in_block := true; block_name := Some (lit "pyproject");
            block_data := [lit "[run]" ++ nl; lit "/// not a name!" ++ nl];
            consumed_blocks := {[lit "pyproject"]};
            possible_errors :=
              [NewBlockBeforeClose (lit "not a name!")
                                   (Some (lit "pyproject"))] |} [].
Proof.
  etrans.
  - apply (C6_nested_opener_is_accumulated
             {| in_block := true; block_name := Some (lit "pyproject");
                block_data := [lit "[run]" ++ nl];
                consumed_blocks := {[lit "pyproject"]};
                possible_errors := [] |}
             (lit "# /// not a name!" ++ nl));
      [reflexivity | reflexivity | vm_compute; discriminate].
  - vm_compute. reflexivity.
Defined.

(** C7: when an open block meets a line that is neither [#] alone nor
    begins with [# ], or the input ends, the scan gives exactly one
    unclosed-block warning for it and yields nothing for it; after such a
    line the scan goes on from outside a block with the accumulated lines
    dropped, and everything yielded before stays in the result. *)
Theorem C7_unclosed_block_is_dropped
    (pre : list str) (evs : list event) (s : scan_state) :
  scan_prefix scan_init pre = (evs, Some s) ->
  in_block s = true ->
  (forall line rest,
      rstrip line <> lit "#" ->
      startswith line (lit "# ") = false ->
      scan_step s line = Next (reset s) [Warn (UnclosedBlock (block_name s))]
      /\ block_data (reset s) = []
      /\ _parse_source_blocks (pre ++ line :: rest)
         = (evs ++ Warn (UnclosedBlock (block_name s))
                :: (scan_from (reset s) rest).1,
            (scan_from (reset s) rest).2)
      /\ yields (_parse_source_blocks (pre ++ line :: rest)).1
         = yields evs ++ yields (scan_from (reset s) rest).1)
  /\ _parse_source_blocks pre
     = (evs ++ [Warn (UnclosedBlock (block_name s))], Exhausted s)
  /\ yields (_parse_source_blocks pre).1 = yields evs.
Proof.
  intros Hpre Hin. split; [|split].
  - intros line rest Hh Hs.
    assert (Hstep := scan_step_unclosed _ _ Hin Hh Hs).
    assert (Hrun : _parse_source_blocks (pre ++ line :: rest)
         = (evs ++ Warn (UnclosedBlock (block_name s))
                :: (scan_from (reset s) rest).1,
            (scan_from (reset s) rest).2)).
    { unfold _parse_source_blocks. rewrite (scan_from_app _ _ _ _ _ Hpre).
      cbn [scan_from]. rewrite Hstep.
      by destruct (scan_from (reset s) rest). }
    repeat split; [done|done|]. rewrite Hrun. cbn [fst].
    unfold yields. by rewrite omap_app.
  - unfold _parse_source_blocks.
    rewrite <- (app_nil_r pre) at 1. rewrite (scan_from_app _ _ _ _ _ Hpre).
    cbn [scan_from fst snd]. unfold scan_eof. by rewrite Hin.
  - unfold _parse_source_blocks.
    rewrite <- (app_nil_r pre) at 1. rewrite (scan_from_app _ _ _ _ _ Hpre).
    cbn [scan_from fst snd]. unfold scan_eof, yields. rewrite Hin, omap_app.
    cbn. by rewrite app_nil_r.
Qed.

Lemma C7_unclosed_block_is_dropped_witness :
  let lines := [lit "# /// pyproject" ++ nl; lit "# [run]" ++ nl] in
  _parse_source_blocks (lines ++ [lit "import sys" ++ nl])
  = ([Warn (UnclosedBlock (Some (lit "pyproject")))],
     Exhausted {| in_block := false; block_name := None; block_data := [];
                  consumed_blocks := {[lit "pyproject"]};
                  possible_errors := [] |})
  /\ _parse_source_blocks lines
     = ([Warn (UnclosedBlock (Some (lit "pyproject")))],
        Exhausted {| in_block := true;
                     block_name := Some (lit "pyproject");
                     block_data := [lit "[run]" ++ nl];
                     consumed_blocks := {[lit "pyproject"]};
                     possible_errors := [] |}).
Proof.
  destruct (C7_unclosed_block_is_dropped
              [lit "# /// pyproject" ++ nl; lit "# [run]" ++ nl] []
              {| in_block := true; block_name := Some (lit "pyproject");
                 block_data := [lit "[run]" ++ nl];
                 consumed_blocks := {[lit "pyproject"]};
                 possible_errors := [] |})
    as (Hline & Heof & _); [vm_compute; reflexivity ..|].
  split; [|exact Heof].
  destruct (Hline (lit "import sys" ++ nl) []) as (_ & _ & Hrun & _);
    [vm_compute; discriminate | reflexivity | exact Hrun].
Defined.

(** ** A single well-formed block *)

Lemma interior_line_comment (line : str) :
  interior_line line = true -> startswith line (lit "#") = true.
Proof.
  intros [[H|H]%orb_true_iff _]%andb_true_iff.
  - apply str_eqb_eq in H. destruct (rstrip_split line) as [ws [E _]].
    rewrite H in E. by rewrite E.
  - by rewrite (startswith_split _ _ H).
Qed.

Lemma interior_text_spec (line : str) :
  interior_line line = true -> interior_text line = spec_interior_text line.
Proof.
  intros H%interior_line_comment.
  unfold interior_text, spec_interior_text.
  by rewrite (startswith_split _ _ H).
Qed.

Lemma valid_name_not_alias (name : str) :
  _is_valid_type name = true -> str_eqb name (lit "pyproject.toml") = false.
Proof.
  intros H. apply str_eqb_neq. intros ->.
  by rewrite alias_name_invalid in H.
Qed.

Lemma scan_step_opener (s : scan_state) (line name : str) :
  in_block s = false ->
  opener_name line = Some name ->
  _is_valid_type name = true ->
  name ∉ consumed_blocks s ->
  scan_step s line
  = Next {| in_block := true; block_name := Some name;
            block_data := block_data s;
            consumed_blocks := {[name]} ∪ consumed_blocks s;
            possible_errors := possible_errors s |} [].
Proof.
  intros Hin Hn Hv Hc. rewrite (scan_step_outside _ _ Hin), Hn.
  rewrite (bool_decide_eq_false_2 _ Hc).
  by rewrite Hv, (valid_name_not_alias _ Hv).
Qed.

(** C4: for one valid opener, interior comment lines and one closer, the
    scan yields exactly one block, under the opener's name, whose text is
    the interior lines joined, each without one leading comment character
    and at most one space after it, line ends kept; and the example source
    of the specification yields one [pyproject] block with the text given
    there. *)
Theorem C4_single_block_text
    (opener closer : str) (interior : list str) (name : str) :
  opener_name opener = Some name ->
  _is_valid_type name = true ->
  forallb interior_line interior = true ->
  rstrip closer = lit "# ///" ->
  (_parse_source_blocks (opener :: interior ++ [closer])).1
    = [Yield (Some name) (join (map spec_interior_text interior))]
  /\ outcome_exn (_parse_source_blocks (opener :: interior ++ [closer])).2
     = None
  /\ (_parse_source_blocks (stringio_lines example_source)).1
     = [Yield (Some (lit "pyproject")) example_text].
Proof.
  intros Hn Hv Hi Hc.
  assert (Hrun : _parse_source_blocks (opener :: interior ++ [closer])
            = ([Yield (Some name) (join (map interior_text interior))],
               Exhausted {| in_block := false; block_name := None;
                            block_data := [];
                            consumed_blocks := {[name]} ∪ ∅;
                            possible_errors :=
                              concat (map (interior_diagnostics (Some name))
                                          interior) |})).
  { unfold _parse_source_blocks. cbn [scan_from].
    rewrite (scan_step_opener scan_init opener name)
      by (done || set_solver).
    erewrite scan_from_app by (by apply scan_prefix_interior).
    cbn [scan_from]. erewrite scan_step_closer by done.
    by fields. }
  rewrite Hrun. cbn [fst snd outcome_exn]. split; [|split; [done|]].
  - assert (map interior_text interior = map spec_interior_text interior)
      as ->; [|done].
    apply map_ext_in. intros l Hl. apply interior_text_spec.
    rewrite forallb_forall in Hi. by apply Hi.
  - vm_compute. reflexivity.
Qed.

Lemma C4_single_block_text_witness :
  (_parse_source_blocks
     [lit "# /// script" ++ nl; lit "# a = 1" ++ nl; lit "#" ++ nl;
      lit "#  b = 2" ++ nl; lit "# ///" ++ nl]).1
  = [Yield (Some (lit "script"))
           (lit "a = 1" ++ nl ++ nl ++ lit " b = 2" ++ nl)].
Proof.
  etrans.
  - apply (C4_single_block_text
             (lit "# /// script" ++ nl) (lit "# ///" ++ nl)
             [lit "# a = 1" ++ nl; lit "#" ++ nl; lit "#  b = 2" ++ nl]
             (lit "script")); vm_compute; reflexivity.
  - vm_compute. reflexivity.
Defined.

(** ** The same opener twice *)








(** ** The diagnostics list *)

(** C8, as stated, fails: a diagnostic recorded while block [a] was open is
    still in the list when block [b] has been entered. *)
Lemma C8_diagnostics_survive_next_block :
  scan_prefix scan_init
    [lit "# /// a" ++ nl; lit "# /// x" ++ nl; lit "# ///" ++ nl;
     lit "# /// b" ++ nl]
  = ([Yield (Some (lit "a")) (lit "/// x" ++ nl)],
     Some {| in_block := true; block_name := Some (lit "b");
             block_data := [];
             consumed_blocks := {[lit "a"; lit "b"]};
             possible_errors :=
               [NewBlockBeforeClose (lit "x") (Some (lit "a"))] |}).
Proof. vm_compute. reflexivity. Qed.

(** C8, amended: the diagnostics list is emptied at the start of a scan
    and nowhere else.  An iteration of the loop never removes an entry;
    outside a block, and so on entering one, it leaves the list as it is;
    inside a block it appends at most one entry, which names the block
    open at that moment and the name read off the line.  So at any point
    of a scan every entry names a block opened earlier in that scan. *)
Theorem C8_diagnostics_reset_per_scan :
  possible_errors scan_init = []
  /\ (forall s line s' evs,
        scan_step s line = Next s' evs ->
        (in_block s = false -> possible_errors s' = possible_errors s)
        /\ (in_block s = true ->
            possible_errors s' = possible_errors s
            \/ possible_errors s'
               = possible_errors s
                   ++ [NewBlockBeforeClose (strip (drop 5 line))
                                           (block_name s)]))
  /\ (forall lines evs s,
        scan_prefix scan_init lines = (evs, Some s) ->
        Forall (fun d => exists x n,
                    d = NewBlockBeforeClose x (Some n)
                    /\ n ∈ consumed_blocks s)
               (possible_errors s)).
Proof.
  split; [done|split].
  - intros s line s' evs H. split; intros Hin.
    + rewrite (scan_step_outside _ _ Hin) in H.
      destruct (opener_name line); [|by simplify_eq].
      case_bool_decide; [done|]. by simplify_eq.
    + unfold scan_step in H. rewrite Hin in H.
      destruct (negb _) in H;
        [assert (s' = reset s) as -> by congruence; by left|].
      destruct (str_eqb _ _) in H;
        [assert (s' = reset s) as -> by congruence; by left|].
      destruct (startswith line (lit "# /// "));
        match type of H with
        | Next ?r _ = _ => assert (s' = r) as -> by congruence
        end; [by right | by left].
  - intros lines evs s H.
    apply (inv_errors _ (scan_inv_prefix _ _ _ _ scan_inv_init H)).
Qed.

Lemma C8_diagnostics_reset_per_scan_witness :
  possible_errors
    {| in_block := true; block_name := Some (lit "b"); block_data := [];
       consumed_blocks := {[lit "a"; lit "b"]};
       possible_errors := [NewBlockBeforeClose (lit "x") (Some (lit "a"))] |}
  = [NewBlockBeforeClose (lit "x") (Some (lit "a"))].
Proof.
  destruct (proj1 (proj2 C8_diagnostics_reset_per_scan)
              {| in_block := false; block_name := None; block_data := [];
                 consumed_blocks := {[lit "a"]};
                 possible_errors :=
                   [NewBlockBeforeClose (lit "x") (Some (lit "a"))] |}
              (lit "# /// b" ++ nl)
              {| in_block := true; block_name := Some (lit "b");
                 block_data := [];
                 consumed_blocks := {[lit "a"; lit "b"]};
                 possible_errors :=
                   [NewBlockBeforeClose (lit "x") (Some (lit "a"))] |}
              [])
    as [Hout _]; [vm_compute; reflexivity|].
  exact (Hout eq_refl).
Defined.

(** ** Dictionaries *)

Section DictFacts.
Context {K V : Type} `{EqDecision K}.
Implicit Types (k : K) (v : V) (d : PyDict.dict K V).

Lemma dict_get_set_eq k v d : PyDict.get k (PyDict.set k v d) = Some v.
Proof.
  induction d as [|[k' v'] d IH]; simpl.
  - by rewrite decide_True.
  - destruct (decide (k' = k)) as [->|Hne]; simpl.
    + by rewrite decide_True.
    + by rewrite decide_False.
Qed.

Lemma dict_get_set_ne k k' v d :
  k <> k' -> PyDict.get k' (PyDict.set k v d) = PyDict.get k' d.
Proof.
  intros Hne. induction d as [|[k0 v0] d IH]; simpl.
  - by rewrite decide_False.
  - destruct (decide (k0 = k)) as [->|Hne0]; simpl.
    + by rewrite !decide_False.
    + destruct (decide (k0 = k')); [done | exact IH].
Qed.

Lemma dict_get_remove_ne k k' d :
  k <> k' -> PyDict.get k' (PyDict.remove k d) = PyDict.get k' d.
Proof.
  intros Hne. induction d as [|[k0 v0] d IH]; simpl; [done|].
  destruct (decide (k0 = k)) as [->|Hne0]; simpl.
  - by rewrite decide_False.
  - destruct (decide (k0 = k')); [done | exact IH].
Qed.

End DictFacts.

(** ** The constructor and the source *)

Lemma same_source_refl (p : parser) : same_source p p.
Proof. by repeat split. Qed.

Lemma same_source_trans (p1 p2 p3 : parser) :
  same_source p1 p2 -> same_source p2 p3 -> same_source p1 p3.
Proof.
  intros (H1 & H2 & H3) (H4 & H5 & H6).
  repeat split; congruence.
Qed.

Lemma keeps_source_ret {A} (a : A) : keeps_source (ret a).
Proof. intros w. apply same_source_refl. Qed.

Lemma keeps_source_raise {A} (e : exn) : keeps_source (@raise A e).
Proof. intros w. apply same_source_refl. Qed.

Lemma keeps_source_lift {A} (r : exn + A) : keeps_source (lift r).
Proof. intros w. apply same_source_refl. Qed.

Lemma keeps_source_bind {A B} (m : M A) (k : A -> M B) :
  keeps_source m -> (forall a, keeps_source (k a)) ->
  keeps_source (bind m k).
Proof.
  intros Hm Hk w. unfold bind. specialize (Hm w).
  destruct (m w) as [[e|a] w1]; [exact Hm|].
  eapply same_source_trans; [exact Hm | apply Hk].
Qed.

Lemma keeps_source_try {A} (m : M A) :
  keeps_source m -> keeps_source (try_KeyError m).
Proof.
  intros Hm w. unfold try_KeyError. specialize (Hm w).
  destruct (m w) as [[e|a] w1]; [|exact Hm]. by destruct e.
Qed.

Section FacadeFacts.
Context {Spec Req : Type}.
Variable open_text : path_arg -> str -> exn + list str.
Variable tomllib_loads : str -> str + PyDict.dict str (@pyval Spec Req).
Variable SpecifierSet : @pyval Spec Req -> exn + Spec.
Variable Requirement : @pyval Spec Req -> exn + Req.

Lemma keeps_source_metadata_blocks : keeps_source (metadata_blocks open_text).
Proof.
  intros w. unfold metadata_blocks.
  by destruct (gr_raised _); repeat split.
Qed.

Lemma keeps_source_get_first (name : str) :
  keeps_source (get_first_metadata_block open_text name).
Proof.
  intros w. unfold get_first_metadata_block.
  destruct (source_lines _ _) as [[e|lines]|]; try apply same_source_refl.
  destruct (first_from _ _ _) as [[ws errs] r]. by repeat split.
Qed.

Lemma keeps_source_get_pyproject_raw :
  keeps_source (get_pyproject_raw open_text).
Proof.
  apply keeps_source_bind; [apply keeps_source_metadata_blocks|].
  intros blocks. destruct (PyDict.get _ _);
    [apply keeps_source_ret | apply keeps_source_raise].
Qed.

Lemma keeps_source_get_pyproject_toml :
  keeps_source (get_pyproject_toml open_text tomllib_loads).
Proof.
  apply keeps_source_bind; [apply keeps_source_get_pyproject_raw|].
  intros raw. destruct (tomllib_loads raw); [|apply keeps_source_ret].
  intros w. destruct (self_possible_errors _); apply same_source_refl.
Qed.

Lemma keeps_source_plain :
  keeps_source (plain_script_dependencies open_text tomllib_loads).
Proof.
  apply keeps_source_bind;
    [apply keeps_source_try, keeps_source_get_pyproject_toml|].
  intros dep_data. apply keeps_source_lift.
Qed.

Lemma keeps_source_typed :
  keeps_source
    (script_dependencies open_text tomllib_loads SpecifierSet Requirement).
Proof.
  apply keeps_source_bind;
    [apply keeps_source_try, keeps_source_get_pyproject_toml|].
  intros block. apply keeps_source_lift.
Qed.

(** What the constructor does on every pair of arguments, as the code
    has it: it raises its configuration error exactly when [src] and
    [src_path] are both true or both false as Python values, [None] and
    the empty string being false; when exactly one of them is true it
    returns a parser holding the arguments as given, and no method changes
    [src], [src_path] or [encoding] afterwards. *)
Theorem C9_constructor_checks_truth
    (a_src : option str) (a_src_path : option path_arg) (a_encoding : str) :
  (__init__ a_src a_src_path a_encoding = inl ProvideOnlyOne
   <-> src_true a_src = true /\ src_path_true a_src_path = true)
  /\ (__init__ a_src a_src_path a_encoding = inl MustProvideOne
      <-> src_true a_src = false /\ src_path_true a_src_path = false)
  /\ ((exists e, __init__ a_src a_src_path a_encoding = inl e)
      <-> src_true a_src = src_path_true a_src_path)
  /\ (src_true a_src <> src_path_true a_src_path ->
      __init__ a_src a_src_path a_encoding
      = inr {| src := a_src; src_path := a_src_path;
               encoding := a_encoding; self_possible_errors := [] |})
  /\ keeps_source (metadata_blocks open_text)
  /\ (forall name, keeps_source (get_first_metadata_block open_text name))
  /\ keeps_source (get_pyproject_raw open_text)
  /\ keeps_source (get_pyproject_toml open_text tomllib_loads)
  /\ keeps_source (pyproject_raw open_text)
  /\ keeps_source (pyproject_toml open_text tomllib_loads)
  /\ keeps_source (plain_script_dependencies open_text tomllib_loads)
  /\ keeps_source
       (script_dependencies open_text tomllib_loads SpecifierSet
          Requirement).
Proof.
  split; [|split; [|split; [|split]]].
  - unfold __init__.
    destruct (src_true a_src), (src_path_true a_src_path); cbn;
      split; (done || by intros []).
  - unfold __init__.
    destruct (src_true a_src), (src_path_true a_src_path); cbn;
      split; (done || by intros []).
  - unfold __init__.
    destruct (src_true a_src), (src_path_true a_src_path); cbn;
      split; try done; try (by intros [e He]); eauto.
  - unfold __init__.
    by destruct (src_true a_src), (src_path_true a_src_path).
  - repeat match goal with |- _ /\ _ => split end; try intros name.
    all: try apply keeps_source_try.
    all: auto using keeps_source_metadata_blocks, keeps_source_get_first,
           keeps_source_get_pyproject_raw, keeps_source_get_pyproject_toml,
           keeps_source_plain, keeps_source_typed.
Qed.

End FacadeFacts.

(** C9: the code departs from the claim at the empty string.  Given
    alone it is refused with the error that says no source was given,
    [from_string] refuses it likewise, and given with a path it is
    accepted although both sources are given. *)
Lemma C9_empty_string_is_not_a_source :
  __init__ (Some []) None (lit "utf-8") = inl MustProvideOne
  /\ from_string [] = inl MustProvideOne
  /\ __init__ (Some []) (Some (PathStr (lit "script.py"))) (lit "utf-8")
     = inr {| src := Some []; src_path := Some (PathStr (lit "script.py"));
              encoding := lit "utf-8"; self_possible_errors := [] |}.
Proof. repeat split; reflexivity. Qed.

Lemma C9_constructor_checks_truth_witness :
  from_string (lit "print(1)")
  = inr {| src := Some (lit "print(1)"); src_path := None;
           encoding := lit "utf-8"; self_possible_errors := [] |}.
Proof.
  apply (C9_constructor_checks_truth (Spec := unit) (Req := unit)
           (fun _ _ => inl FileError) (fun _ => inr [])
           (fun _ => inr tt) (fun _ => inr tt)
           (Some (lit "print(1)")) None (lit "utf-8")).
  vm_compute. discriminate.
Defined.

(** ** The dependency views *)

Lemma keys_differ : PYTHON_VERSION_KEY <> DEPENDENCIES_KEY.
Proof. vm_compute. discriminate. Qed.

Section DependencyViews.
Context {Spec Req : Type}.
Variable open_text : path_arg -> str -> exn + list str.
Variable tomllib_loads : str -> str + PyDict.dict str (@pyval Spec Req).
Variable SpecifierSet : @pyval Spec Req -> exn + Spec.
Variable Requirement : @pyval Spec Req -> exn + Req.
Implicit Types (run : PyDict.dict str (@pyval Spec Req)).

Lemma plain_defaults_dict run :
  exists m,
    plain_defaults (VDict run) = inr (VDict m)
    /\ other_keys_kept run m
    /\ PyDict.get PYTHON_VERSION_KEY m
       = Some (default VNone (PyDict.get PYTHON_VERSION_KEY run))
    /\ PyDict.get DEPENDENCIES_KEY m
       = Some (default (VList []) (PyDict.get DEPENDENCIES_KEY run)).
Proof.
  pose proof keys_differ as Hk.
  unfold plain_defaults, and_then, py_contains, py_setitem, other_keys_kept.
  destruct (PyDict.get PYTHON_VERSION_KEY run) as [v|] eqn:Ev;
    [rewrite bool_decide_eq_true_2 by eauto
    |rewrite bool_decide_eq_false_2 by (by intros [? ?])]; cbn [negb].
  - destruct (PyDict.get DEPENDENCIES_KEY run) as [d|] eqn:Ed;
      [rewrite bool_decide_eq_true_2 by eauto
      |rewrite bool_decide_eq_false_2 by (by intros [? ?])]; cbn [negb].
    + exists run. by rewrite Ev, Ed.
    + eexists. split; [reflexivity|]. split; [|split].
      * intros k _ Hd. by rewrite dict_get_set_ne.
      * by rewrite dict_get_set_ne, Ev.
      * by rewrite dict_get_set_eq.
  - rewrite (dict_get_set_ne PYTHON_VERSION_KEY DEPENDENCIES_KEY) by done.
    destruct (PyDict.get DEPENDENCIES_KEY run) as [d|] eqn:Ed;
      [rewrite bool_decide_eq_true_2 by eauto
      |rewrite bool_decide_eq_false_2 by (by intros [? ?])]; cbn [negb].
    + eexists. split; [reflexivity|]. split; [|split].
      * intros k Hp _. by rewrite dict_get_set_ne.
      * by rewrite dict_get_set_eq.
      * by rewrite dict_get_set_ne, Ed.
    + eexists. split; [reflexivity|]. split; [|split].
      * intros k Hp Hd. by rewrite !dict_get_set_ne.
      * by rewrite dict_get_set_ne, dict_get_set_eq.
      * by rewrite dict_get_set_eq.
Qed.

Lemma typed_values_table run (rp ds rb : @pyval Spec Req) :
  typed_values SpecifierSet Requirement (VDict run) = inr (rp, ds, rb) ->
  rb = VDict (PyDict.remove DEPENDENCIES_KEY
                (PyDict.remove PYTHON_VERSION_KEY run)).
Proof.
  unfold typed_values, and_then, py_pop. intros H.
  repeat case_match; by simplify_eq.
Qed.

Lemma requirements_accept (specs : list (@pyval Spec Req)) :
  Forall (fun spec => exists r, Requirement spec = inr r) specs ->
  exists rs, requirements Requirement specs = inr rs.
Proof.
  induction 1 as [|spec specs [r Hr] _ [rs Hrs]]; simpl.
  - by eexists.
  - rewrite Hr. cbn [and_then]. rewrite Hrs. by eexists.
Qed.

Lemma typed_values_accept run :
  collaborators_accept SpecifierSet Requirement run ->
  exists rp ds rb,
    typed_values SpecifierSet Requirement (VDict run) = inr (rp, ds, rb).
Proof.
  intros [Hspec Hreq].
  unfold typed_values, py_pop. cbn [and_then].
  rewrite (dict_get_remove_ne PYTHON_VERSION_KEY DEPENDENCIES_KEY)
    by apply keys_differ.
  destruct (truthy (default VNone _)).
  - destruct (Hspec eq_refl) as [x ->]. cbn [and_then].
    destruct (truthy (default (VList []) _)).
    + destruct (Hreq eq_refl) as (specs & -> & Hall). cbn [and_then].
      destruct (requirements_accept _ Hall) as [rs ->]. by eexists _, _, _.
    + by eexists _, _, _.
  - cbn [and_then]. destruct (truthy (default (VList []) _)).
    + destruct (Hreq eq_refl) as (specs & -> & Hall). cbn [and_then].
      destruct (requirements_accept _ Hall) as [rs ->]. by eexists _, _, _.
    + by eexists _, _, _.
Qed.

Lemma typed_result_keeps run (rp ds : @pyval Spec Req) :
  other_keys_kept run
    (PyDict.set DEPENDENCIES_KEY ds
       (PyDict.set PYTHON_VERSION_KEY rp
          (PyDict.remove DEPENDENCIES_KEY
             (PyDict.remove PYTHON_VERSION_KEY run)))).
Proof.
  intros k Hp Hd.
  by rewrite !dict_get_set_ne, !dict_get_remove_ne.
Qed.

(** C10: when the [pyproject] block decodes and its [run] entry is a
    table, the plain view returns that table with every key other than
    [requires-python] and [dependencies] mapped to the value it had, and
    so does the typed view whenever it returns, which it does when
    [packaging] accepts the two values; keys that were absent stay absent
    apart from those two, which both views always define. *)
Theorem C10_views_keep_other_keys
    (w w1 : world) (doc run : PyDict.dict str (@pyval Spec Req)) :
  get_pyproject_toml open_text tomllib_loads w = (inr doc, w1) ->
  PyDict.get (lit "run") doc = Some (VDict run) ->
  (exists m,
      plain_script_dependencies open_text tomllib_loads w
        = (inr (VDict m), w1)
      /\ other_keys_kept run m
      /\ PyDict.get PYTHON_VERSION_KEY m
         = Some (default VNone (PyDict.get PYTHON_VERSION_KEY run))
      /\ PyDict.get DEPENDENCIES_KEY m
         = Some (default (VList []) (PyDict.get DEPENDENCIES_KEY run)))
  /\ (forall r w2,
        script_dependencies open_text tomllib_loads SpecifierSet
          Requirement w = (inr r, w2) ->
        exists m, r = VDict m /\ other_keys_kept run m
                  /\ is_Some (PyDict.get PYTHON_VERSION_KEY m)
                  /\ is_Some (PyDict.get DEPENDENCIES_KEY m))
  /\ (collaborators_accept SpecifierSet Requirement run ->
      exists m,
        script_dependencies open_text tomllib_loads SpecifierSet
          Requirement w = (inr (VDict m), w1)
        /\ other_keys_kept run m).
Proof.
  intros Hdoc Hrun.
  assert (Htyped :
    script_dependencies open_text tomllib_loads SpecifierSet Requirement w
    = (vals <-! typed_values SpecifierSet Requirement (VDict run) ;;
       let '(requires_python, dependencies, run_block) := vals in
       run_block <-! py_setitem run_block PYTHON_VERSION_KEY
                       requires_python ;;
       py_setitem run_block DEPENDENCIES_KEY dependencies, w1)).
  { unfold script_dependencies, bind, try_KeyError, lift, run_table.
    by rewrite Hdoc, Hrun. }
  split; [|split].
  - destruct (plain_defaults_dict run) as (m & Hm & Hrest).
    exists m. split; [|exact Hrest].
    unfold plain_script_dependencies, bind, try_KeyError, lift, run_table.
    rewrite Hdoc, Hrun. by rewrite <- Hm.
  - intros r w2 H. rewrite Htyped in H.
    destruct (typed_values _ _ _) as [e|[[rp ds] rb]] eqn:E;
      cbn [and_then] in H; [done|].
    apply typed_values_table in E as ->.
    cbn [py_setitem and_then] in H. simplify_eq.
    eexists. split; [reflexivity|]. split; [apply typed_result_keeps|].
    split.
    + rewrite dict_get_set_ne by (symmetry; apply keys_differ).
      rewrite dict_get_set_eq. by eexists.
    + rewrite dict_get_set_eq. by eexists.
  - intros Hacc.
    destruct (typed_values_accept run Hacc) as (rp & ds & rb & E).
    pose proof (typed_values_table _ _ _ _ E) as ->.
    rewrite Htyped, E. cbn [py_setitem and_then].
    eexists. split; [reflexivity | apply typed_result_keeps].
Qed.

End DependencyViews.

Lemma C10_views_keep_other_keys_witness :
  (exists m,
      plain_script_dependencies no_files views_loads views_world
      = (inr (VDict m), views_world)
      /\ PyDict.get (lit "retries") m = Some (VInt 3))
  /\ (exists m,
        script_dependencies no_files views_loads specifier_of
          requirement_of views_world
        = (inr (VDict m), views_world)
        /\ PyDict.get (lit "retries") m = Some (VInt 3)).
Proof.
  destruct (C10_views_keep_other_keys no_files views_loads specifier_of
              requirement_of views_world views_world views_document
              views_run)
    as ((m & Hm & Hkeep & _) & _ & Htyped);
    [vm_compute; reflexivity ..|].
  split.
  - exists m. split; [exact Hm|].
    rewrite Hkeep; [reflexivity | vm_compute; discriminate ..].
  - destruct Htyped as (m' & Hm' & Hkeep').
    + split.
      * intros H. vm_compute in H. discriminate H.
      * intros _. eexists. split; [vm_compute; reflexivity|].
        repeat constructor; eexists; vm_compute; reflexivity.
    + exists m'. split; [exact Hm'|].
      rewrite Hkeep'; [reflexivity | vm_compute; discriminate ..].
Defined.

(** * Further properties of the code *)

(** ** The two helpers *)

(** X1: [_removeprefix] undoes the concatenation of the prefix, and in every
    case takes away either exactly the prefix or nothing. *)
Theorem removeprefix_round_trip (txt prefix : str) :
  _removeprefix (prefix ++ txt) prefix = txt
  /\ (prefix ++ _removeprefix txt prefix = txt
      \/ (_removeprefix txt prefix = txt
          /\ startswith txt prefix = false)).
Proof.
  split.
  - unfold _removeprefix. rewrite startswith_app.
    by rewrite drop_app_length.
  - unfold _removeprefix. destruct (startswith txt prefix) eqn:E.
    + left. symmetry. by apply startswith_split.
    + by right.
Qed.

(** X2: [_is_valid_type] accepts exactly the strings made of ASCII letters,
    digits and hyphens, the empty string among them, and so accepts a
    concatenation exactly when it accepts both parts. *)
Theorem is_valid_type_characters (a b : str) :
  (_is_valid_type a = true
   <-> Forall (fun c => (97 <= c <= 122)%N \/ (65 <= c <= 90)%N
                        \/ (48 <= c <= 57)%N \/ c = 45%N) a)
  /\ _is_valid_type [] = true
  /\ _is_valid_type (a ++ b) = _is_valid_type a && _is_valid_type b.
Proof.
  split; [|split].
  - rewrite is_valid_type_class, forallb_forall, Forall_forall.
    split; intros H c Hc.
    + apply list_elem_of_In, H in Hc. unfold in_name_class in Hc.
      repeat match type of Hc with
             | _ || _ = true => apply orb_true_iff in Hc as [Hc|Hc]
             | _ && _ = true => apply andb_true_iff in Hc as [? ?]
             end;
        repeat match goal with
               | H : (_ <=? _) = true |- _ => apply N.leb_le in H
               | H : (_ =? _) = true |- _ => apply N.eqb_eq in H
               end; lia.
    + apply list_elem_of_In, H in Hc. unfold in_name_class.
      destruct Hc as [[? ?]|[[? ?]|[[? ?]|Hc]]].
      * rewrite (proj2 (N.leb_le 97 c)), (proj2 (N.leb_le c 122)) by done.
        done.
      * rewrite (proj2 (N.leb_le 65 c)), (proj2 (N.leb_le c 90)) by done.
        by rewrite orb_true_r.
      * rewrite (proj2 (N.leb_le 48 c)), (proj2 (N.leb_le c 57)) by done.
        by rewrite !orb_true_r.
      * rewrite (proj2 (N.eqb_eq c 45)) by done. by rewrite !orb_true_r.
  - reflexivity.
  - by rewrite !is_valid_type_class, forallb_app.
Qed.

(** ** Lines that cannot open a block *)

Lemma rstrip_prefix (txt p : str) :
  startswith (rstrip txt) p = true -> startswith txt p = true.
Proof.
  intros H. destruct (rstrip_split txt) as [ws [E _]].
  rewrite E, (startswith_split _ _ H), <- app_assoc.
  apply startswith_app.
Qed.

Lemma opener_name_prefixed (line name : str) :
  opener_name line = Some name -> startswith line (lit "# /// ") = true.
Proof.
  unfold opener_name. destruct (startswith line (lit "#")); [|done].
  cbv zeta. destruct (negb _); [|done]. cbn [andb].
  destruct (startswith (rstrip line) (lit "# /// ")) eqn:E; [|done].
  intros _. by apply rstrip_prefix.
Qed.

Lemma scan_prefix_idle (s : scan_state) (lines : list str) :
  in_block s = false ->
  forallb not_opener_prefixed lines = true ->
  scan_prefix s lines = ([], Some s).
Proof.
  intros Hin. induction lines as [|line lines IH]; [done|].
  intros [Hl Hr]%andb_true_iff. cbn [scan_prefix].
  rewrite (scan_step_outside _ _ Hin).
  destruct (opener_name line) as [name|] eqn:E.
  - apply opener_name_prefixed in E. unfold not_opener_prefixed in Hl.
    by rewrite E in Hl.
  - by rewrite (IH Hr).
Qed.

(** X3: A source in which no line begins with [# /// ] gives no block, no
    warning and no error, whatever else it holds: stray closers, other
    comments, code, or nothing at all. *)
Theorem no_opener_no_event (lines : list str) :
  forallb not_opener_prefixed lines = true ->
  _parse_source_blocks lines = ([], Exhausted scan_init).
Proof.
  intros H. unfold _parse_source_blocks.
  rewrite <- (app_nil_r lines).
  by rewrite (scan_from_app _ _ _ _ _ (scan_prefix_idle scan_init lines
                                         eq_refl H)).
Qed.

Lemma no_opener_no_event_witness :
  _parse_source_blocks
    [lit "# ///" ++ nl; lit "#!/usr/bin/env python" ++ nl;
     lit "#///pyproject" ++ nl; lit "import sys" ++ nl]
  = ([], Exhausted scan_init).
Proof.
  apply (no_opener_no_event
           [lit "# ///" ++ nl; lit "#!/usr/bin/env python" ++ nl;
            lit "#///pyproject" ++ nl; lit "import sys" ++ nl]).
  vm_compute. reflexivity.
Defined.

(** ** The scan reads its input once, front to back *)

Lemma scan_from_raised (s : scan_state) (pre rest : list str)
    (evs : list event) :
  scan_prefix s pre = (evs, None) ->
  (scan_from s (pre ++ rest)).1 = evs
  /\ outcome_exn (scan_from s (pre ++ rest)).2 <> None.
Proof.
  revert s evs. induction pre as [|line pre IH]; intros s evs H;
    cbn [scan_prefix] in H; [done|].
  cbn [app scan_from].
  destruct (scan_step s line) as [s1 evs1|e evs1]; [|by simplify_eq].
  destruct (scan_prefix s1 pre) as [evs2 o] eqn:E. simplify_eq.
  destruct (IH _ _ E) as [IH1 IH2].
  destruct (scan_from s1 (pre ++ rest)) as [evs3 o3].
  cbn [fst snd] in *. by subst.
Qed.

(** X4: Reading one more line adds a block to what the generator has
    yielded exactly when a block is open and the line, without its
    trailing white space, is [# ///]: the block added is the open one
    with the lines accumulated so far, every other line adds nothing, and
    what has been yielded by then stays yielded whatever lines follow. *)
Theorem one_more_line_yields_at_a_closer
    (pre : list str) (line : str) (evs : list event) (s : scan_state) :
  scan_prefix scan_init pre = (evs, Some s) ->
  yields (scan_prefix scan_init (pre ++ [line])).1
  = yields evs
      ++ (if in_block s && str_eqb (rstrip line) (lit "# ///")
          then [(block_name s, join (block_data s))] else [])
  /\ forall rest,
       yields (scan_prefix scan_init (pre ++ [line])).1
         `prefix_of` yields (_parse_source_blocks (pre ++ line :: rest)).1.
Proof.
  intros Hpre. split.
  - rewrite (scan_prefix_app _ _ _ _ _ Hpre). cbn [fst scan_prefix].
    unfold yields. rewrite omap_app. f_equal.
    destruct (in_block s) eqn:Hin; cbn [andb].
    + destruct (str_eqb (rstrip line) (lit "# ///")) eqn:Hc.
      * apply str_eqb_eq in Hc. by rewrite (scan_step_closer _ _ Hin Hc).
      * unfold scan_step. rewrite Hin, Hc.
        by destruct (negb _).
    + rewrite (scan_step_outside _ _ Hin).
      destruct (opener_name line) as [name|]; [|done].
      case_bool_decide; [done|]. by destruct (str_eqb name _).
  - intros rest.
    replace (pre ++ line :: rest) with ((pre ++ [line]) ++ rest)
      by (by rewrite <- app_assoc).
    unfold _parse_source_blocks.
    destruct (scan_prefix scan_init (pre ++ [line])) as [evs' [s'|]] eqn:E.
    + rewrite (scan_from_app _ _ _ _ _ E). cbn [fst].
      unfold yields. rewrite omap_app. by eexists.
    + by destruct (scan_from_raised _ _ rest _ E) as [-> _].
Qed.

Lemma one_more_line_yields_at_a_closer_witness :
  yields (scan_prefix scan_init
            ([lit "# /// pyproject" ++ nl; lit "# [run]" ++ nl]
               ++ [lit "# ///" ++ nl])).1
  = [(Some (lit "pyproject"), lit "[run]" ++ nl)].
Proof.
  etrans.
  - apply (one_more_line_yields_at_a_closer
             [lit "# /// pyproject" ++ nl; lit "# [run]" ++ nl]
             (lit "# ///" ++ nl) []
             {| in_block := true; block_name := Some (lit "pyproject");
                block_data := [lit "[run]" ++ nl];
                consumed_blocks := {[lit "pyproject"]};
                possible_errors := [] |}).
    vm_compute. reflexivity.
  - vm_compute. reflexivity.
Defined.

(** ** The names of the blocks a scan yields *)

Lemma rstrip_last_nonspace (txt a : str) (c : char) :
  rstrip txt = a ++ [c] -> is_space c = false.
Proof.
  revert a. induction txt as [|x r IH]; intros a H; cbn [rstrip] in H.
  - by destruct a.
  - destruct (rstrip r) as [|y r'] eqn:E.
    + destruct (is_space x) eqn:Ex; [by destruct a|].
      destruct a as [|? [|? ?]]; cbn [app] in H; by simplify_eq.
    + destruct a as [|x' a']; cbn [app] in H; [by destruct r'|].
      simplify_eq. by apply (IH a').
Qed.

Lemma rstrip_keep (a : str) (c : char) :
  is_space c = false -> rstrip (a ++ [c]) = a ++ [c].
Proof.
  intros Hc. induction a as [|x a IH]; cbn [app rstrip].
  - by rewrite Hc.
  - rewrite IH. by destruct a.
Qed.

Lemma lstrip_last (a : str) (c : char) :
  is_space c = false -> lstrip (a ++ [c]) <> [].
Proof.
  intros Hc. induction a as [|x a IH]; cbn [app lstrip].
  - by rewrite Hc.
  - by destruct (is_space x).
Qed.

Lemma opener_name_spec (line name : str) :
  opener_name line = Some name ->
  startswith line (lit "# /// ") = true
  /\ name = strip (drop 6 (rstrip line))
  /\ name <> [].
Proof.
  intros H. split; [by eapply opener_name_prefixed|].
  unfold opener_name in H. destruct (startswith line (lit "#")); [|done].
  cbv zeta in H. destruct (negb _); [|done]. cbn [andb] in H.
  destruct (startswith (rstrip line) (lit "# /// ")) eqn:E; [|done].
  apply startswith_split in E.
  set (r := drop (length (lit "# /// ")) (rstrip line)) in E.
  assert (Hname : name = strip r).
  { rewrite E in H. by injection H as <-. }
  assert (Hdrop : drop 6 (rstrip line) = r) by (by rewrite E).
  rewrite Hdrop. split; [done|]. subst name.
  clearbody r. destruct r as [|c r' _] using rev_ind.
  - rewrite app_nil_r in E.
    by pose proof (rstrip_last_nonspace line (lit "# ///") 32 E).
  - rewrite app_assoc in E.
    pose proof (rstrip_last_nonspace _ _ _ E) as Hc.
    unfold strip. rewrite (rstrip_keep _ _ Hc). by apply lstrip_last.
Qed.

Lemma scan_step_consumed_new (s s' : scan_state) (line : str)
    (evs : list event) (n : str) :
  scan_step s line = Next s' evs -> n ∈ consumed_blocks s' ->
  n ∈ consumed_blocks s \/ opener_name line = Some n.
Proof.
  intros H Hn. destruct (in_block s) eqn:Hin.
  - left. unfold scan_step in H. rewrite Hin in H.
    destruct (negb _) in H;
      [assert (s' = reset s) as -> by congruence; done|].
    destruct (str_eqb _ _) in H;
      [assert (s' = reset s) as -> by congruence; done|].
    match type of H with
    | Next ?r _ = _ => assert (s' = r) as -> by congruence
    end. done.
  - rewrite (scan_step_outside _ _ Hin) in H.
    destruct (opener_name line) as [name|]; [|left; congruence].
    case_bool_decide; [done|].
    match type of H with
    | Next ?r _ = _ => assert (s' = r) as -> by congruence
    end. fields.
    destruct (_is_valid_type name); [|by left].
    apply elem_of_union in Hn as [->%elem_of_singleton|Hn]; eauto.
Qed.

Lemma scan_step_yield_consumed (s s' : scan_state) (line : str)
    (evs : list event) (n : option str) (t : str) :
  scan_inv s -> scan_step s line = Next s' evs -> Yield n t ∈ evs ->
  in_block s = true /\ n = block_name s /\ evs = [Yield n t]
  /\ in_block s' = false
  /\ exists name, n = Some name /\ name ∈ consumed_blocks s.
Proof.
  intros [_ Ho _ _] H Hy. destruct (in_block s) eqn:Hin.
  - destruct (Ho eq_refl) as [name [Hn Hcn]].
    unfold scan_step in H. rewrite Hin in H.
    destruct (negb _) in H;
      [assert (evs = [Warn (UnclosedBlock (block_name s))]) as ->
         by congruence; no_yield Hy|].
    destruct (str_eqb _ _) in H;
      [|assert (evs = []) as -> by congruence; no_yield Hy].
    assert (evs = [Yield (block_name s) (join (block_data s))]) as ->
      by congruence.
    assert (s' = reset s) as -> by congruence.
    apply list_elem_of_singleton in Hy. injection Hy as -> ->.
    repeat split; eauto.
  - rewrite (scan_step_outside _ _ Hin) in H.
    destruct (opener_name line) as [name|];
      [|assert (evs = []) as -> by congruence; no_yield Hy].
    case_bool_decide; [done|].
    destruct (str_eqb _ _);
      match type of H with
      | Next _ ?e = _ => assert (evs = e) as -> by congruence
      end; no_yield Hy.
Qed.

Lemma scan_from_yield_opener (s : scan_state) (lines : list str)
    (n : option str) (t : str) :
  scan_inv s -> Yield n t ∈ (scan_from s lines).1 ->
  exists name,
    n = Some name
    /\ (name ∈ consumed_blocks s
        \/ exists line, line ∈ lines /\ opener_name line = Some name).
Proof.
  revert s. induction lines as [|line lines IH]; intros s Hi Hy;
    cbn [scan_from] in Hy.
  - unfold scan_eof in Hy. cbn [fst] in Hy. destruct (in_block s);
      no_yield Hy.
  - destruct (scan_step s line) as [s1 evs1|e evs1] eqn:E.
    + destruct (scan_from s1 lines) as [evs2 o] eqn:E2. cbn [fst] in Hy.
      apply elem_of_app in Hy as [Hy|Hy].
      * destruct (scan_step_yield_consumed _ _ _ _ _ _ Hi E Hy)
          as (_ & _ & _ & _ & name & -> & Hc). eauto.
      * destruct (IH s1) as (name & -> & Hc);
          [by eapply scan_inv_step | by rewrite E2 |].
        exists name. split; [done|]. destruct Hc as [Hc|(l & Hl & Ho)].
        -- destruct (scan_step_consumed_new _ _ _ _ _ E Hc) as [?|Ho];
             [by left|]. right. exists line. split; [left|done].
        -- right. exists l. split; [by right|done].
    + apply scan_step_raise in E as [-> _]. no_yield Hy.
Qed.

(** X5: Every name a scan yields was read off a line of the source that
    begins with [# /// ]: it is what follows that prefix on the line,
    with the white space at both ends removed, and it is never empty. *)
Theorem yielded_name_comes_from_an_opener
    (lines : list str) (n : option str) (t : str) :
  (n, t) ∈ yields (_parse_source_blocks lines).1 ->
  exists name line,
    n = Some name /\ line ∈ lines
    /\ startswith line (lit "# /// ") = true
    /\ name = strip (drop 6 (rstrip line))
    /\ name <> [].
Proof.
  intros H%yields_elem.
  destruct (scan_from_yield_opener scan_init lines n t scan_inv_init H)
    as (name & -> & [Hc|(line & Hl & Ho)]).
  - by apply not_elem_of_empty in Hc.
  - exists name, line. split; [done|]. split; [done|].
    by apply opener_name_spec.
Qed.

Lemma yielded_name_comes_from_an_opener_witness :
  exists name line,
    Some (lit "pyproject") = Some name
    /\ line ∈ stringio_lines example_source
    /\ startswith line (lit "# /// ") = true
    /\ name = strip (drop 6 (rstrip line))
    /\ name <> [].
Proof.
  apply (yielded_name_comes_from_an_opener
           (stringio_lines example_source) (Some (lit "pyproject"))
           example_text).
  vm_compute. apply list_elem_of_here.
Defined.

Section DictOfPairs.
Context {K V : Type} `{EqDecision K}.

Lemma dict_set_fresh (k : K) (v : V) (d : PyDict.dict K V) :
  k ∉ d.*1 -> PyDict.set k v d = d ++ [(k, v)].
Proof.
  induction d as [|[k' v'] d IH]; cbn; [done|].
  intros [Hne Hd]%not_elem_of_cons.
  rewrite decide_False by done. by rewrite IH.
Qed.

Lemma dict_of_pairs_from (acc l : list (K * V)) :
  NoDup (acc.*1 ++ l.*1) ->
  foldl (fun d kv => PyDict.set kv.1 kv.2 d) acc l = acc ++ l.
Proof.
  revert acc. induction l as [|[k v] l IH]; intros acc Hnd; cbn.
  - by rewrite app_nil_r.
  - cbn in Hnd. rewrite dict_set_fresh.
    + rewrite IH; [by rewrite <- app_assoc|].
      by rewrite fmap_app, <- app_assoc.
    + apply NoDup_app in Hnd as (_ & Hnd & _). intros Hk.
      apply (Hnd k Hk). left.
Qed.

Lemma dict_of_pairs_nodup (l : list (K * V)) :
  NoDup l.*1 -> PyDict.of_pairs l = l.
Proof. intros H. by apply (dict_of_pairs_from [] l). Qed.

Lemma dict_get_app (k : K) (a b : PyDict.dict K V) :
  PyDict.get k (a ++ b)
  = match PyDict.get k a with
    | Some v => Some v
    | None => PyDict.get k b
    end.
Proof.
  induction a as [|[k' v'] a IH]; cbn; [done|].
  by destruct (decide (k' = k)).
Qed.

Lemma dict_get_elem (k : K) (v : V) (d : PyDict.dict K V) :
  NoDup d.*1 -> PyDict.get k d = Some v <-> (k, v) ∈ d.
Proof.
  induction d as [|[k' v'] d IH]; cbn.
  - intros _. split; [done|]. by intros ?%elem_of_nil.
  - intros [Hk Hd]%NoDup_cons. destruct (decide (k' = k)) as [->|Hne].
    + split.
      * intros [= ->]. left.
      * intros [[= ->]|Hin]%elem_of_cons; [done|].
        exfalso. apply Hk. apply list_elem_of_fmap. by exists (k, v).
    + rewrite (IH Hd). split.
      * by right.
      * intros [[= -> ->]|Hin]%elem_of_cons; done.
Qed.

End DictOfPairs.

Lemma seen_ok_step (seen : list (option str)) (s s' : scan_state)
    (line : str) (evs : list event) :
  scan_inv s -> seen_ok seen s -> scan_step s line = Next s' evs ->
  seen_ok (seen ++ (yields evs).*1) s'.
Proof.
  intros Hi (Hnd & Hseen & Hopen) H.
  pose proof (scan_step_consumed _ _ _ _ H) as Hsub.
  assert (Hseen' : forall n, n ∈ seen ->
            exists name, n = Some name /\ name ∈ consumed_blocks s').
  { intros n Hn. destruct (Hseen n Hn) as (name & -> & Hc).
    exists name. split; [done|]. by apply Hsub. }
  destruct (in_block s) eqn:Hin.
  - destruct (inv_open _ Hi Hin) as (name & Hname & Hcn).
    unfold scan_step in H. rewrite Hin in H.
    destruct (negb _) in H.
    { assert (s' = reset s) as -> by congruence.
      assert (evs = [Warn (UnclosedBlock (block_name s))]) as ->
        by congruence.
      cbn. rewrite app_nil_r. by repeat split. }
    destruct (str_eqb _ _) in H.
    { assert (s' = reset s) as -> by congruence.
      assert (evs = [Yield (block_name s) (join (block_data s))]) as ->
        by congruence.
      cbn [yields omap fmap list_fmap fst]. repeat split; [| |done].
      - apply NoDup_app. split; [done|]. split; [|apply NoDup_singleton].
        intros n Hn ->%list_elem_of_singleton. by apply Hopen.
      - intros n [Hn | ->%list_elem_of_singleton]%elem_of_app; [eauto|].
        exists name. split; [done|]. by apply Hsub. }
    match type of H with
    | Next ?r ?e = _ =>
        assert (s' = r) as -> by congruence;
        assert (evs = e) as -> by congruence
    end.
    cbn. rewrite app_nil_r. repeat split; [done|done|].
    intros _. by apply Hopen.
  - rewrite (scan_step_outside _ _ Hin) in H.
    destruct (opener_name line) as [name|].
    + case_bool_decide as Hc; [done|].
      assert (Hy : (yields evs).*1 = []).
      { destruct (str_eqb _ _);
          match type of H with
          | Next _ ?e = _ => assert (evs = e) as -> by congruence
          end; reflexivity. }
      rewrite Hy, app_nil_r. repeat split; [done|done|].
      match type of H with
      | Next ?r _ = _ => assert (s' = r) as -> by congruence
      end. fields. intros _ Hn.
      destruct (Hseen _ Hn) as (name' & E & Hc'). by simplify_eq.
    + assert (s' = s) as -> by congruence.
      assert (evs = []) as -> by congruence.
      cbn. rewrite app_nil_r. repeat split; [done|done|].
      by rewrite Hin.
Qed.

Lemma scan_from_nodup (seen : list (option str)) (s : scan_state)
    (lines : list str) :
  scan_inv s -> seen_ok seen s ->
  NoDup (seen ++ (yields (scan_from s lines).1).*1).
Proof.
  revert seen s. induction lines as [|line lines IH]; intros seen s Hi Hs;
    cbn [scan_from].
  - unfold scan_eof. cbn [fst].
    destruct (in_block s); cbn; rewrite app_nil_r; apply Hs.
  - destruct (scan_step s line) as [s1 evs1|e evs1] eqn:E.
    + pose proof (IH _ _ (scan_inv_step _ _ _ _ Hi E)
                    (seen_ok_step _ _ _ _ _ Hi Hs E)) as Hnd.
      destruct (scan_from s1 lines) as [evs2 o]. cbn [fst] in *.
      unfold yields in *. by rewrite omap_app, fmap_app, app_assoc.
    + apply scan_step_raise in E as [-> _]. cbn. rewrite app_nil_r.
      apply Hs.
Qed.

Lemma yielded_names_nodup_aux (lines : list str) :
  NoDup (yields (_parse_source_blocks lines).1).*1.
Proof.
  apply (scan_from_nodup [] scan_init lines scan_inv_init).
  repeat split; [apply NoDup_nil_2 | by intros n ?%elem_of_nil | done].
Qed.

(** X6: No scan yields two blocks under the same name, whether it runs to the
    end of the source or stops at a duplicate opener; and a name is
    yielded at most once even when its text differs. *)
Theorem yielded_names_are_distinct
    (lines : list str) (n : option str) (t1 t2 : str) :
  NoDup (yields (_parse_source_blocks lines).1).*1
  /\ ((n, t1) ∈ yields (_parse_source_blocks lines).1 ->
      (n, t2) ∈ yields (_parse_source_blocks lines).1 -> t1 = t2).
Proof.
  pose proof (yielded_names_nodup_aux lines) as Hnd.
  split; [done|]. intros H1 H2.
  apply (dict_get_elem _ _ _ Hnd) in H1, H2. congruence.
Qed.

(** ** The dictionary of [metadata_blocks] *)


(** X7: When [metadata_blocks] returns, its dictionary holds the blocks the
    scan yielded, in their order in the source and none overwritten by
    another: looking a name up gives a text exactly when the scan yielded
    that name with that text. *)
Theorem metadata_blocks_are_the_yields
    (open_text : path_arg -> str -> exn + list str) (w w1 : world)
    (blocks : PyDict.dict (option str) str) (lines : list str) :
  metadata_blocks open_text w = (inr blocks, w1) ->
  source_lines open_text (obj w) = Some (inr lines) ->
  blocks = yields (_parse_source_blocks lines).1
  /\ outcome_exn (_parse_source_blocks lines).2 = None
  /\ forall name t,
       PyDict.get (Some name) blocks = Some t
       <-> (Some name, t) ∈ yields (_parse_source_blocks lines).1.
Proof.
  intros H Hsrc. pose proof (yielded_names_nodup_aux lines) as Hnd.
  unfold metadata_blocks, iter_raw_metadata_blocks in H. rewrite Hsrc in H.
  destruct (_parse_source_blocks lines) as [evs [s|e s]];
    cbn [gr_raised gr_events fst snd] in *; [|done].
  rewrite (dict_of_pairs_nodup _ Hnd) in H.
  assert (blocks = yields evs) as -> by congruence.
  repeat split; try done; by apply dict_get_elem.
Qed.

Lemma yielded_names_are_distinct_witness :
  example_text = example_text.
Proof.
  apply (yielded_names_are_distinct (stringio_lines example_source)
           (Some (lit "pyproject")) example_text example_text);
    vm_compute; apply list_elem_of_here.
Defined.

Lemma metadata_blocks_are_the_yields_witness :
  [(Some (lit "pyproject"), views_text)]
  = yields (_parse_source_blocks (stringio_lines views_source)).1.
Proof.
  apply (metadata_blocks_are_the_yields no_files views_world views_world
           [(Some (lit "pyproject"), views_text)]
           (stringio_lines views_source));
    vm_compute; reflexivity.
Defined.

(** ** Several blocks in one source *)

Lemma scan_prefix_block (s : scan_state) (b : block_src) :
  in_block s = false ->
  block_data s = [] ->
  well_formed_block b ->
  b_name b ∉ consumed_blocks s ->
  scan_prefix s (block_lines b)
  = ([Yield (block_yield b).1 (block_yield b).2],
     Some {| in_block := false; block_name := None; block_data := [];
             consumed_blocks := {[b_name b]} ∪ consumed_blocks s;
             possible_errors :=
               possible_errors s
                 ++ concat (map (interior_diagnostics (Some (b_name b)))
                                (b_interior b)) |}).
Proof.
  intros Hin Hd (Hbefore & Hname & Hvalid & Hint & Hclose) Hfresh.
  unfold block_lines.
  rewrite (scan_prefix_app _ _ _ _ _ (scan_prefix_idle s _ Hin Hbefore)).
  cbn [scan_prefix app].
  rewrite (scan_step_opener s _ _ Hin Hname Hvalid Hfresh).
  erewrite (scan_prefix_app _ _ (b_interior b) [b_closer b])
    by (by apply scan_prefix_interior).
  cbn [scan_prefix]. erewrite scan_step_closer by done.
  fields. by rewrite Hd.
Qed.

Lemma scan_from_blocks (s : scan_state) (blocks : list block_src)
    (tail : list str) :
  in_block s = false ->
  block_data s = [] ->
  Forall well_formed_block blocks ->
  NoDup (map b_name blocks) ->
  (forall b, b ∈ blocks -> b_name b ∉ consumed_blocks s) ->
  forallb not_opener_prefixed tail = true ->
  (scan_from s (concat (map block_lines blocks) ++ tail)).1
  = map (fun b => Yield (block_yield b).1 (block_yield b).2) blocks
  /\ outcome_exn (scan_from s (concat (map block_lines blocks) ++ tail)).2
     = None.
Proof.
  revert s. induction blocks as [|b blocks IH];
    intros s Hin Hd Hwf Hnd Hfresh Htail.
  - cbn [map concat app].
    rewrite <- (app_nil_r tail).
    rewrite (scan_from_app _ _ _ _ _ (scan_prefix_idle s tail Hin Htail)).
    cbn [scan_from fst snd]. unfold scan_eof. by rewrite Hin.
  - apply Forall_cons in Hwf as [Hb Hwf].
    cbn [map] in Hnd. apply NoDup_cons in Hnd as [Hb_new Hnd].
    cbn [map concat]. rewrite <- app_assoc.
    rewrite (scan_from_app _ _ _ _ _
               (scan_prefix_block s b Hin Hd Hb (Hfresh b ltac:(left)))).
    cbn [fst snd map].
    edestruct (IH {| in_block := false; block_name := None;
                     block_data := [];
                     consumed_blocks := {[b_name b]} ∪ consumed_blocks s;
                     possible_errors :=
                       possible_errors s
                         ++ concat (map (interior_diagnostics
                                           (Some (b_name b)))
                                        (b_interior b)) |})
      as [IH1 IH2]; try done.
    + fields. intros b' Hb' [Heq%elem_of_singleton|Hc]%elem_of_union.
      * apply Hb_new. rewrite <- Heq. apply list_elem_of_In, in_map.
        by apply list_elem_of_In.
      * by apply (Hfresh b'); [right|].
    + by rewrite IH1, IH2.
Qed.

(** X8: A source made of well-formed blocks with distinct valid names, each
    preceded by any lines that do not begin with [# /// ], and followed by
    such lines, is scanned without warning or error: the blocks are yielded
    in the order of the source, each with the text of its own interior
    lines, and [metadata_blocks] returns exactly these pairs. *)
Theorem blocks_are_yielded_in_order
    (blocks : list block_src) (tail : list str) :
  Forall well_formed_block blocks ->
  NoDup (map b_name blocks) ->
  forallb not_opener_prefixed tail = true ->
  let lines := concat (map block_lines blocks) ++ tail in
  (_parse_source_blocks lines).1
  = map (fun b => Yield (block_yield b).1 (block_yield b).2) blocks
  /\ outcome_exn (_parse_source_blocks lines).2 = None
  /\ forall open_text w,
       source_lines open_text (obj w) = Some (inr lines) ->
       (metadata_blocks open_text w).1 = inr (map block_yield blocks).
Proof.
  intros Hwf Hnd Htail lines.
  destruct (scan_from_blocks scan_init blocks tail) as [H1 H2];
    try done.
  fold lines in H1, H2. unfold _parse_source_blocks.
  split; [done|]. split; [done|].
  intros open_text w Hsrc.
  pose proof (yielded_names_nodup_aux lines) as Hnodup.
  unfold metadata_blocks, iter_raw_metadata_blocks, _parse_source_blocks
    in *.
  rewrite Hsrc. destruct (scan_from scan_init lines) as [evs [s|e s]];
    cbn [fst snd outcome_exn gr_raised gr_events] in *; [|done].
  rewrite (dict_of_pairs_nodup _ Hnodup). f_equal. subst evs.
  clear. induction blocks as [|b blocks IH]; [done|].
  cbn. by rewrite <- IH.
Qed.

Lemma blocks_are_yielded_in_order_witness :
  (_parse_source_blocks
     [lit "#!/usr/bin/env python" ++ nl;
      lit "# /// script" ++ nl; lit "# a = 1" ++ nl; lit "# ///" ++ nl;
      nl;
      lit "# /// pyproject" ++ nl; lit "# [run]" ++ nl; lit "# ///" ++ nl;
      lit "import sys" ++ nl]).1
  = [Yield (Some (lit "script")) (lit "a = 1" ++ nl);
     Yield (Some (lit "pyproject")) (lit "[run]" ++ nl)].
Proof.
  etrans.
  - apply (blocks_are_yielded_in_order
             [{| b_before := [lit "#!/usr/bin/env python" ++ nl];
                 b_opener := lit "# /// script" ++ nl;
                 b_name := lit "script";
                 b_interior := [lit "# a = 1" ++ nl];
                 b_closer := lit "# ///" ++ nl |};
              {| b_before := [nl];
                 b_opener := lit "# /// pyproject" ++ nl;
                 b_name := lit "pyproject";
                 b_interior := [lit "# [run]" ++ nl];
                 b_closer := lit "# ///" ++ nl |}]
             [lit "import sys" ++ nl]).
    + repeat constructor; vm_compute; reflexivity.
    + repeat constructor; vm_compute;
        [intros [H|H]%elem_of_cons | intros H]; try discriminate H;
        by apply elem_of_nil in H.
    + vm_compute. reflexivity.
  - vm_compute. reflexivity.
Defined.

(** ** [get_first_metadata_block] *)

Lemma first_yield_get (name : str) (seen : list warning)
    (evs : list event) :
  match first_yield name seen evs with
  | inr (_, t) => PyDict.get (Some name) (yields evs) = Some t
  | inl _ => PyDict.get (Some name) (yields evs) = None
  end.
Proof.
  revert seen. induction evs as [|[n t|w] evs IH]; intros seen;
    cbn [first_yield]; [done| |apply IH].
  change (yields (Yield n t :: evs)) with ((n, t) :: yields evs).
  cbn [PyDict.get]. destruct (decide (n = Some name)); [done|apply IH].
Qed.

Lemma yields_app (a b : list event) :
  yields (a ++ b) = yields a ++ yields b.
Proof. unfold yields. apply omap_app. Qed.

Lemma first_from_prefix (name : str) (s s' : scan_state)
    (pre rest : list str) (evs : list event) :
  scan_prefix s pre = (evs, Some s') ->
  (first_from name s (pre ++ rest)).2
  = match PyDict.get (Some name) (yields evs) with
    | Some t => inr t
    | None => (first_from name s' rest).2
    end.
Proof.
  revert s evs. induction pre as [|line pre IH]; intros s evs H;
    cbn [scan_prefix] in H.
  - by simplify_eq.
  - cbn [app first_from].
    destruct (scan_step s line) as [s1 evs1|e evs1]; [|done].
    destruct (scan_prefix s1 pre) as [evs2 o] eqn:E. simplify_eq.
    rewrite yields_app, dict_get_app.
    pose proof (first_yield_get name [] evs1) as Hy.
    destruct (first_yield name [] evs1) as [ws|[ws t]].
    + rewrite Hy, <- (IH _ _ E).
      by destruct (first_from name s1 (pre ++ rest)) as [[? ?] ?].
    + by rewrite Hy.
Qed.

Lemma scan_from_exhausted (s s' : scan_state) (lines : list str)
    (evs : list event) :
  scan_from s lines = (evs, Exhausted s') ->
  exists evs0,
    scan_prefix s lines = (evs0, Some s') /\ yields evs = yields evs0.
Proof.
  revert s evs. induction lines as [|line lines IH]; intros s evs H;
    cbn [scan_from scan_prefix] in *.
  - simplify_eq. exists []. split; [done|].
    unfold scan_eof. by destruct (in_block s').
  - destruct (scan_step s line) as [s1 evs1|e evs1]; [|done].
    destruct (scan_from s1 lines) as [evs2 o] eqn:E. simplify_eq.
    destruct (IH _ _ E) as (evs0 & -> & Hy).
    eexists. split; [done|]. by rewrite !yields_app, Hy.
Qed.

Lemma scan_prefix_nodup (pre : list str) (evs : list event)
    (s : scan_state) :
  scan_prefix scan_init pre = (evs, Some s) -> NoDup (yields evs).*1.
Proof.
  intros H. pose proof (yielded_names_nodup_aux pre) as Hnd.
  unfold _parse_source_blocks in Hnd.
  rewrite <- (app_nil_r pre), (scan_from_app _ _ _ _ _ H) in Hnd.
  cbn [fst] in Hnd. rewrite yields_app, fmap_app in Hnd.
  by apply NoDup_app in Hnd as [? _].
Qed.

(** X9: When [metadata_blocks] returns a dictionary, the lookup by name
    agrees with it: [get_first_metadata_block] returns the text the
    dictionary holds under the name, and fails with [KeyError] exactly for
    the names the dictionary lacks. *)
Theorem get_first_agrees_with_metadata_blocks
    (open_text : path_arg -> str -> exn + list str) (w w1 : world)
    (blocks : PyDict.dict (option str) str) (name : str) :
  metadata_blocks open_text w = (inr blocks, w1) ->
  (get_first_metadata_block open_text name w).1
  = match PyDict.get (Some name) blocks with
    | Some t => inr t
    | None => inl (KeyError name)
    end.
Proof.
  unfold metadata_blocks, iter_raw_metadata_blocks,
    get_first_metadata_block.
  destruct (source_lines open_text (obj w)) as [[e|lines]|];
    cbn [gr_raised gr_events]; [done| |by intros [= <- _]].
  pose proof (yielded_names_nodup_aux lines) as Hnd.
  unfold _parse_source_blocks in *.
  destruct (scan_from scan_init lines) as [evs [s|e s]] eqn:E;
    cbn [gr_raised gr_events fst] in *; [|done].
  rewrite (dict_of_pairs_nodup _ Hnd). intros [= <- _].
  destruct (scan_from_exhausted _ _ _ _ E) as (evs0 & Hpre & ->).
  pose proof (first_from_prefix name _ _ _ [] _ Hpre) as Hf.
  rewrite app_nil_r in Hf.
  destruct (first_from name scan_init lines) as [[ws errs] r].
  cbn [fst snd] in *. rewrite Hf.
  by destruct (PyDict.get (Some name) (yields evs0)).
Qed.

Lemma get_first_agrees_with_metadata_blocks_witness :
  (get_first_metadata_block no_files (lit "pyproject") views_world).1
  = inr views_text
  /\ (get_first_metadata_block no_files (lit "script") views_world).1
     = inl (KeyError (lit "script")).
Proof.
  split.
  - etrans.
    + apply (get_first_agrees_with_metadata_blocks no_files views_world
               views_world [(Some (lit "pyproject"), views_text)]
               (lit "pyproject")).
      vm_compute. reflexivity.
    + vm_compute. reflexivity.
  - etrans.
    + apply (get_first_agrees_with_metadata_blocks no_files views_world
               views_world [(Some (lit "pyproject"), views_text)]
               (lit "script")).
      vm_compute. reflexivity.
    + vm_compute. reflexivity.
Defined.

(** X10: [get_first_metadata_block] reads no further than the closer of the
    block it returns: once the lines read so far have yielded the name,
    it returns that text whatever follows, a second opener of the same
    name included, on which [metadata_blocks] fails. *)
Theorem get_first_stops_at_its_block
    (pre : list str) (evs : list event) (s : scan_state)
    (name t : str) :
  scan_prefix scan_init pre = (evs, Some s) ->
  (Some name, t) ∈ yields evs ->
  forall rest open_text w,
    source_lines open_text (obj w) = Some (inr (pre ++ rest)) ->
    (get_first_metadata_block open_text name w).1 = inr t.
Proof.
  intros Hpre Hy rest open_text w Hsrc.
  apply (dict_get_elem _ _ _ (scan_prefix_nodup _ _ _ Hpre)) in Hy.
  unfold get_first_metadata_block. rewrite Hsrc.
  pose proof (first_from_prefix name _ _ _ rest _ Hpre) as Hf.
  rewrite Hy in Hf.
  by destruct (first_from name scan_init (pre ++ rest)) as [[ws errs] r].
Qed.

Lemma get_first_stops_at_its_block_witness :
  (get_first_metadata_block no_files (lit "pyproject")
     (world_of duplicate_source)).1
  = inr (lit "a = 1" ++ nl)
  /\ (metadata_blocks no_files (world_of duplicate_source)).1
     = inl (MultipleBlocks (lit "pyproject")).
Proof.
  split; [|vm_compute; reflexivity].
  assert (Hpre : scan_prefix scan_init
            [lit "# /// pyproject" ++ nl; lit "# a = 1" ++ nl;
             lit "# ///" ++ nl]
          = ([Yield (Some (lit "pyproject")) (lit "a = 1" ++ nl)],
             Some {| in_block := false; block_name := None;
                     block_data := [];
                     consumed_blocks := {[lit "pyproject"]};
                     possible_errors := [] |}))
    by (vm_compute; reflexivity).
  assert (Hy : (Some (lit "pyproject"), lit "a = 1" ++ nl)
               ∈ yields [Yield (Some (lit "pyproject"))
                               (lit "a = 1" ++ nl)])
    by (vm_compute; apply list_elem_of_here).
  apply (get_first_stops_at_its_block _ _ _ _ _ Hpre Hy
           [lit "# /// pyproject" ++ nl; lit "# b = 2" ++ nl;
            lit "# ///" ++ nl]
           no_files (world_of duplicate_source)).
  vm_compute. reflexivity.
Defined.

(** ** Diagnostics from one scan to the next *)

Lemma scan_from_raised_exn (s s' : scan_state) (lines : list str)
    (e : exn) :
  (scan_from s lines).2 = Raised e s' ->
  exists name, e = MultipleBlocks name.
Proof.
  revert s. induction lines as [|line lines IH]; intros s H;
    cbn [scan_from] in H; [done|].
  destruct (scan_step s line) as [s1 evs1|e1 evs1] eqn:E.
  - destruct (scan_from s1 lines) as [evs2 o] eqn:E2. cbn [snd] in H.
    apply (IH s1). by rewrite E2.
  - cbn [snd] in H. simplify_eq.
    apply scan_step_raise in E as (_ & _ & name & -> & _). eauto.
Qed.

(** X11: A second call of [metadata_blocks] gives the same result as the first
    and leaves the parser as the first call left it: the diagnostics of one
    scan are not added to those of the scan before. *)
Theorem metadata_blocks_twice
    (open_text : path_arg -> str -> exn + list str) (w : world) :
  (metadata_blocks open_text (metadata_blocks open_text w).2).1
  = (metadata_blocks open_text w).1
  /\ obj (metadata_blocks open_text (metadata_blocks open_text w).2).2
     = obj (metadata_blocks open_text w).2.
Proof.
  assert (Hw : obj (metadata_blocks open_text w).2
               = set_possible_errors (obj w)
                   (gr_errors (iter_raw_metadata_blocks open_text (obj w)))).
  { unfold metadata_blocks. by destruct (gr_raised _). }
  assert (Hr : iter_raw_metadata_blocks open_text
                 (obj (metadata_blocks open_text w).2)
               = iter_raw_metadata_blocks open_text (obj w)).
  { rewrite Hw. unfold iter_raw_metadata_blocks.
    change (source_lines open_text (set_possible_errors (obj w) ?e))
      with (source_lines open_text (obj w)).
    by destruct (source_lines open_text (obj w)) as [[e|lines]|]. }
  split.
  - unfold metadata_blocks at 1. rewrite Hr.
    unfold metadata_blocks. by destruct (gr_raised _).
  - unfold metadata_blocks at 1. rewrite Hr.
    transitivity
      (set_possible_errors (obj (metadata_blocks open_text w).2)
         (gr_errors (iter_raw_metadata_blocks open_text (obj w))));
      [by destruct (gr_raised _)|].
    by rewrite Hw.
Qed.

(** X12: When decoding the [pyproject] block of a string source fails, the
    error carries the message of [tomllib] for the text the scan yielded
    under [pyproject], together with the diagnostics of that very scan,
    nested openers met inside its blocks, which are also what the parser
    is left holding. *)
Theorem decode_error_carries_scan_diagnostics
    {Spec Req : Type}
    (open_text : path_arg -> str -> exn + list str)
    (tomllib_loads : str -> str + PyDict.dict str (@pyval Spec Req))
    (w w1 : world) (text msg : str) (errs : list diagnostic) :
  src (obj w) = Some text ->
  text <> [] ->
  get_pyproject_toml open_text tomllib_loads w
    = (inl (TOMLDecodeError msg errs), w1) ->
  exists evs s raw,
    _parse_source_blocks (stringio_lines text) = (evs, Exhausted s)
    /\ (Some (lit "pyproject"), raw) ∈ yields evs
    /\ tomllib_loads raw = inl msg
    /\ errs = possible_errors s
    /\ self_possible_errors (obj w1) = errs.
Proof.
  intros Hsrc Htext H.
  pose proof (yielded_names_nodup_aux (stringio_lines text)) as Hnd.
  unfold get_pyproject_toml, get_pyproject_raw, bind, metadata_blocks,
    iter_raw_metadata_blocks, source_lines in H.
  rewrite Hsrc in H. destruct text as [|c text]; [done|].
  cbn [src_true default from_option id] in H.
  destruct (_parse_source_blocks (stringio_lines (c :: text)))
    as [evs [s|e s]] eqn:E; cbn [gr_raised gr_events gr_errors fst] in *.
  - rewrite (dict_of_pairs_nodup _ Hnd) in H.
    destruct (PyDict.get (Some (lit "pyproject")) (yields evs))
      as [raw|] eqn:Hraw; [|by cbv [raise] in H].
    cbv [ret] in H. destruct (tomllib_loads raw) as [m|data] eqn:Hl;
      [|done].
    exists evs, s, raw. split; [done|].
    split; [by apply (dict_get_elem _ _ _ Hnd)|].
    cbn [obj set_possible_errors self_possible_errors] in H.
    destruct (possible_errors s) eqn:Hp; by simplify_eq.
  - pose proof (scan_from_raised_exn scan_init s _ e
                  ltac:(unfold _parse_source_blocks in E; by rewrite E))
      as [name ->].
    done.
Qed.

Lemma decode_error_carries_scan_diagnostics_witness :
  exists evs s raw,
    _parse_source_blocks (stringio_lines broken_source)
      = (evs, Exhausted s)
    /\ (Some (lit "pyproject"), raw) ∈ yields evs
    /\ edge_loads raw = inl (lit "Invalid statement (at line 1, column 1)")
    /\ [NewBlockBeforeClose (lit "other") (Some (lit "pyproject"))]
       = possible_errors s
    /\ self_possible_errors
         (obj {| obj := set_possible_errors (obj (world_of broken_source))
                          [NewBlockBeforeClose (lit "other")
                             (Some (lit "pyproject"))];
                 warned := [] |})
       = [NewBlockBeforeClose (lit "other") (Some (lit "pyproject"))].
Proof.
  apply (decode_error_carries_scan_diagnostics no_files edge_loads
           (world_of broken_source)
           {| obj := set_possible_errors (obj (world_of broken_source))
                       [NewBlockBeforeClose (lit "other")
                          (Some (lit "pyproject"))];
              warned := [] |}
           broken_source
           (lit "Invalid statement (at line 1, column 1)")
           [NewBlockBeforeClose (lit "other") (Some (lit "pyproject"))]);
    [reflexivity | vm_compute; discriminate | vm_compute; reflexivity].
Defined.

(** ** The dependency views at the edges *)

Section ViewEdges.
Context {Spec Req : Type}.
Variable open_text : path_arg -> str -> exn + list str.
Variable tomllib_loads : str -> str + PyDict.dict str (@pyval Spec Req).
Variable SpecifierSet : @pyval Spec Req -> exn + Spec.
Variable Requirement : @pyval Spec Req -> exn + Req.

(** X13: With no [pyproject] block in the source, or no [run] entry in the
    decoded block, both views return the same two-entry table:
    [requires-python] is [None] and [dependencies] is the empty list, and
    [packaging] is not consulted. *)
Theorem views_default_without_run (w w1 : world) :
  (exists k,
      get_pyproject_toml open_text tomllib_loads w = (inl (KeyError k), w1))
  \/ (exists doc,
         get_pyproject_toml open_text tomllib_loads w = (inr doc, w1)
         /\ PyDict.get (lit "run") doc = None) ->
  plain_script_dependencies open_text tomllib_loads w
    = (inr (VDict [(PYTHON_VERSION_KEY, VNone);
                   (DEPENDENCIES_KEY, VList [])]), w1)
  /\ script_dependencies open_text tomllib_loads SpecifierSet
       Requirement w
     = (inr (VDict [(PYTHON_VERSION_KEY, VNone);
                    (DEPENDENCIES_KEY, VList [])]), w1).
Proof.
  unfold plain_script_dependencies, script_dependencies, bind,
    try_KeyError, lift, run_table.
  intros [[k ->]|(doc & -> & ->)]; split; reflexivity.
Qed.

(** X14: In the typed view a [requires-python] or [dependencies] value that is
    false in Python (an empty string, an empty list, an empty table, zero)
    is not handed to [packaging]: the view returns [None] and the empty
    list in their place. *)
Theorem typed_view_skips_false_values
    (w w1 : world) (doc run : PyDict.dict str (@pyval Spec Req)) :
  get_pyproject_toml open_text tomllib_loads w = (inr doc, w1) ->
  PyDict.get (lit "run") doc = Some (VDict run) ->
  truthy (default VNone (PyDict.get PYTHON_VERSION_KEY run)) = false ->
  truthy (default (VList []) (PyDict.get DEPENDENCIES_KEY run)) = false ->
  exists m,
    script_dependencies open_text tomllib_loads SpecifierSet
      Requirement w = (inr (VDict m), w1)
    /\ PyDict.get PYTHON_VERSION_KEY m = Some VNone
    /\ PyDict.get DEPENDENCIES_KEY m = Some (VList [])
    /\ other_keys_kept run m.
Proof.
  intros Hdoc Hrun Hpy Hdeps.
  unfold script_dependencies, bind, try_KeyError, lift, run_table.
  rewrite Hdoc, Hrun. cbn [default from_option id].
  unfold typed_values, py_pop. cbn [and_then].
  rewrite (dict_get_remove_ne PYTHON_VERSION_KEY DEPENDENCIES_KEY)
    by apply keys_differ.
  rewrite Hpy, Hdeps. cbn [and_then py_setitem].
  eexists. split; [reflexivity|]. split; [|split].
  - rewrite dict_get_set_ne by (symmetry; apply keys_differ).
    apply dict_get_set_eq.
  - apply dict_get_set_eq.
  - apply typed_result_keeps.
Qed.

(** X15: When the [run] entry of the decoded block is not a table, the typed
    view always raises, with [TypeError] for a list and [AttributeError]
    otherwise; the plain view raises [TypeError], except that a string or
    a list that contains both key names is returned as it is. *)
Theorem views_need_a_table
    (w w1 : world) (doc : PyDict.dict str (@pyval Spec Req))
    (v : @pyval Spec Req) :
  get_pyproject_toml open_text tomllib_loads w = (inr doc, w1) ->
  PyDict.get (lit "run") doc = Some v ->
  (forall d, v <> VDict d) ->
  script_dependencies open_text tomllib_loads SpecifierSet Requirement w
    = (inl (match v with VList _ => TypeError | _ => AttributeError end),
       w1)
  /\ plain_script_dependencies open_text tomllib_loads w
     = (match py_contains PYTHON_VERSION_KEY v,
              py_contains DEPENDENCIES_KEY v with
        | inr true, inr true => inr v
        | _, _ => inl TypeError
        end, w1).
Proof.
  intros Hdoc Hrun Hv.
  unfold script_dependencies, plain_script_dependencies, bind,
    try_KeyError, lift, run_table.
  rewrite Hdoc, Hrun. cbn [default from_option id].
  destruct v as [|s|z|b|bits|iso|l|d|x|x]; try (by split);
    try (by destruct (Hv d)).
  - split; [done|]. f_equal. unfold plain_defaults. cbn [py_contains].
    destruct (str_contains s PYTHON_VERSION_KEY);
      cbn [and_then negb py_setitem py_contains]; [|done].
    by destruct (str_contains s DEPENDENCIES_KEY).
  - split; [done|]. f_equal. unfold plain_defaults. cbn [py_contains].
    destruct (existsb _ l);
      cbn [and_then negb py_setitem py_contains]; [|done].
    by destruct (existsb _ l).
Qed.

End ViewEdges.

Lemma views_default_without_run_witness :
  plain_script_dependencies no_files views_loads
    (world_of (lit "print(1)" ++ nl))
  = (inr (VDict [(PYTHON_VERSION_KEY, VNone);
                 (DEPENDENCIES_KEY, VList [])]),
     world_of (lit "print(1)" ++ nl)).
Proof.
  apply (views_default_without_run no_files views_loads specifier_of
           requirement_of (world_of (lit "print(1)" ++ nl))
           (world_of (lit "print(1)" ++ nl))).
  left. exists (lit "pyproject"). vm_compute. reflexivity.
Defined.

Lemma typed_view_skips_false_values_witness :
  exists m,
    script_dependencies no_files edge_loads specifier_of requirement_of
      (world_of empty_pyver_source)
    = (inr (VDict m), world_of empty_pyver_source)
    /\ PyDict.get PYTHON_VERSION_KEY m = Some VNone.
Proof.
  destruct (typed_view_skips_false_values no_files edge_loads
              specifier_of requirement_of
              (world_of empty_pyver_source) (world_of empty_pyver_source)
              [(lit "run", VDict [(lit "requires-python", VStr [])])]
              [(lit "requires-python", VStr [])])
    as (m & Hm & Hpy & _); [vm_compute; reflexivity ..|].
  exists m. split; [exact Hm | exact Hpy].
Defined.

Lemma views_need_a_table_witness :
  script_dependencies no_files edge_loads specifier_of requirement_of
    (world_of number_run_source)
  = (inl AttributeError, world_of number_run_source)
  /\ plain_script_dependencies no_files edge_loads
       (world_of number_run_source)
     = (inl TypeError, world_of number_run_source).
Proof.
  apply (views_need_a_table no_files edge_loads specifier_of
           requirement_of (world_of number_run_source)
           (world_of number_run_source) [(lit "run", VInt 5)] (VInt 5));
    [vm_compute; reflexivity | vm_compute; reflexivity | discriminate].
Defined.

(** ** The two class methods *)

(** X16: [from_string] refuses the empty string and [from_path] the empty
    path string, both with the "must provide one" error; any other
    argument gives a parser holding it, with the other source [None], and
    neither method can raise the "provide only one" error. *)
Theorem class_methods_refuse_empty
    (text : str) (path : path_arg) (enc : str) :
  (from_string text = inl MustProvideOne <-> text = [])
  /\ (text <> [] ->
      from_string text
      = inr {| src := Some text; src_path := None;
               encoding := lit "utf-8"; self_possible_errors := [] |})
  /\ (from_path path enc = inl MustProvideOne <-> path = PathStr [])
  /\ (path <> PathStr [] ->
      from_path path enc
      = inr {| src := None; src_path := Some path; encoding := enc;
               self_possible_errors := [] |})
  /\ from_string text <> inl ProvideOnlyOne
  /\ from_path path enc <> inl ProvideOnlyOne.
Proof.
  unfold from_string, from_path, __init__.
  destruct text as [|c text], path as [[|c' p]|p]; cbn;
    repeat split; try done; try (by intros [=]).
Qed.

Lemma class_methods_refuse_empty_witness :
  from_string (lit "print(1)")
  = inr {| src := Some (lit "print(1)"); src_path := None;
           encoding := lit "utf-8"; self_possible_errors := [] |}.
Proof.
  apply (class_methods_refuse_empty (lit "print(1)") (PathStr [])
           (lit "utf-8")).
  vm_compute. discriminate.
Defined.

(** ** The accessors that return [None] *)

(** X17: For a string source whose scan runs to the end, [pyproject_raw]
    returns the text yielded under [pyproject], or [None] when there is
    none; in that case [pyproject_toml] returns [None] too without calling
    [tomllib], while [get_pyproject_raw] and [get_pyproject_toml] raise
    [KeyError]. *)
Theorem optional_accessors_follow_the_scan
    {Spec Req : Type}
    (open_text : path_arg -> str -> exn + list str)
    (tomllib_loads : str -> str + PyDict.dict str (@pyval Spec Req))
    (w : world) (text : str) (evs : list event) (s : scan_state) :
  src (obj w) = Some text ->
  text <> [] ->
  _parse_source_blocks (stringio_lines text) = (evs, Exhausted s) ->
  (pyproject_raw open_text w).1
  = inr (PyDict.get (Some (lit "pyproject")) (yields evs))
  /\ (get_pyproject_raw open_text w).1
     = match PyDict.get (Some (lit "pyproject")) (yields evs) with
       | Some raw => inr raw
       | None => inl (KeyError (lit "pyproject"))
       end
  /\ (PyDict.get (Some (lit "pyproject")) (yields evs) = None ->
      (pyproject_toml open_text tomllib_loads w).1 = inr None
      /\ (get_pyproject_toml open_text tomllib_loads w).1
         = inl (KeyError (lit "pyproject"))).
Proof.
  intros Hsrc Htext Hscan.
  pose proof (yielded_names_nodup_aux (stringio_lines text)) as Hnd.
  rewrite Hscan in Hnd. cbn [fst] in Hnd.
  assert (Hraw : get_pyproject_raw open_text w
    = (match PyDict.get (Some (lit "pyproject")) (yields evs) with
       | Some raw => inr raw
       | None => inl (KeyError (lit "pyproject"))
       end,
       {| obj := set_possible_errors (obj w) (possible_errors s);
          warned := warned w ++ warnings evs |})).
  { unfold get_pyproject_raw, bind, metadata_blocks,
      iter_raw_metadata_blocks, source_lines.
    rewrite Hsrc. destruct text as [|c text]; [done|].
    cbn [src_true default from_option id]. rewrite Hscan.
    cbn [gr_raised gr_events gr_errors].
    rewrite (dict_of_pairs_nodup _ Hnd).
    by destruct (PyDict.get _ _). }
  split; [|split].
  - unfold pyproject_raw, try_KeyError. rewrite Hraw.
    by destruct (PyDict.get _ _).
  - by rewrite Hraw.
  - intros Hnone.
    unfold pyproject_toml, try_KeyError, get_pyproject_toml, bind.
    by rewrite Hraw, Hnone.
Qed.

Lemma optional_accessors_follow_the_scan_witness :
  (pyproject_raw no_files (world_of (lit "print(1)" ++ nl))).1 = inr None
  /\ (pyproject_raw no_files views_world).1 = inr (Some views_text).
Proof.
  split.
  - apply (optional_accessors_follow_the_scan no_files views_loads
             (world_of (lit "print(1)" ++ nl)) (lit "print(1)" ++ nl)
             [] scan_init);
      [reflexivity | vm_compute; discriminate | vm_compute; reflexivity].
  - etrans.
    + apply (optional_accessors_follow_the_scan no_files views_loads
               views_world views_source
               [Yield (Some (lit "pyproject")) views_text]
               {| in_block := false; block_name := None; block_data := [];
                  consumed_blocks := {[lit "pyproject"]};
                  possible_errors := [] |});
        [reflexivity | vm_compute; discriminate | vm_compute; reflexivity].
    + vm_compute. reflexivity.
Defined.
